(** * Airline reservation system: the reservation core of [main.cpp]

    The program keeps two SQLite tables, [Flights] and [Users], and
    drives them from a console menu.  Every operation of the menu is
    embedded here as a function from the text and numbers typed at the
    prompts, and the database before, to the database after and the line
    the operation prints.

    What is modelled, and how:
    - a table is a finite map from its PRIMARY KEY to the other columns;
    - the engine's constraints ([PRIMARY KEY], [UNIQUE(flightNumber,
      seatNumber)]) are checked by [exec], which refuses the statement
      as SQLite does; [FOREIGN KEY] is declared but SQLite does not
      enforce it unless the pragma is switched on, which the program
      never does;
    - a prepared statement receives its text parameters through
      [c_str], i.e. up to the first NUL character;
    - a statement built by concatenation places the typed text between
      two apostrophes: [sql_literal] gives the value that SQL reads
      there.  Text whose apostrophes are not doubled ends the literal
      early and turns the rest into SQL of its own; such statements are
      outside this development, and an operation that would run one
      has no result here ([None]);
    - [INTEGER] columns are unbounded integers ([Z]); the 32-bit read
      [sqlite3_column_int] is written out.  (SQLite's 64-bit range is
      out of reach: counters start from a 32-bit input and move by one
      per operation.)
    - the storage itself does not fail (the file opens, the disk
      writes). *)

From stdpp Require Import base option strings gmap fin_maps.
From Stdlib Require Import ZArith Lia Ascii.

Local Open Scope string_scope.
Local Open Scope Z_scope.

(** ** Data model *)

(** [struct Flight] and [struct User] of the source. *)
Module Flight.
Record t := Build {
  flightNumber : string;
  airlineName : string;
  startingPoint : string;
  destination : string;
  totalTickets : Z;
  availableTickets : Z
}.
End Flight.

Module User.
Record t := Build {
  name : string;
  userID : string;
  flightNumber : string;
  seatNumber : Z
}.
End User.

(** A row of table [Flights], less its key [flightNumber]. *)
Module Flights.
Record row := Row {
  airlineName : string;
  startingPoint : string;
  destination : string;
  totalTickets : Z;
  availableTickets : Z
}.

Definition setAvailable (f : Z → Z) (r : row) : row :=
  Row (airlineName r) (startingPoint r) (destination r) (totalTickets r)
      (f (availableTickets r)).
End Flights.

(** A row of table [Users], less its key [userID]. *)
Module Users.
Record row := Row {
  name : string;
  flightNumber : string;
  seatNumber : Z
}.
End Users.

#[global] Instance Flights_row_eq_dec : EqDecision Flights.row.
Proof. solve_decision. Defined.

#[global] Instance Users_row_eq_dec : EqDecision Users.row.
Proof. solve_decision. Defined.

Record Database := Db {
  flights : gmap string Flights.row;
  users : gmap string Users.row
}.

(** The database [initializeDatabase] creates when there is no file yet:
    both tables exist and are empty. *)
Definition initializeDatabase : Database := Db ∅ ∅.

(** ** Text on its way into the engine *)

Definition NUL : ascii := "000"%char.
Definition apostrophe : ascii := "'"%char.

(** [std::string::c_str] read back as a C string: the characters before
    the first NUL. *)
Fixpoint c_str (s : string) : string :=
  match s with
  | EmptyString => EmptyString
  | String c r => if Ascii.eqb c NUL then EmptyString else String c (c_str r)
  end.

(** The value SQL reads for ['] ++ s ++ [']: a doubled apostrophe stands
    for one apostrophe; a single one would close the literal inside [s],
    and a NUL cuts the statement text, both outside the fragment. *)
Fixpoint sql_literal (s : string) : option string :=
  match s with
  | EmptyString => Some EmptyString
  | String c r =>
      if Ascii.eqb c apostrophe then
        match r with
        | String c' r' =>
            if Ascii.eqb c' apostrophe
            then String apostrophe <$> sql_literal r'
            else None
        | EmptyString => None
        end
      else if Ascii.eqb c NUL then None
      else String c <$> sql_literal r
  end.

(** Text with neither apostrophe nor NUL: it reaches the engine as typed,
    by either route. *)
Fixpoint plain (s : string) : bool :=
  match s with
  | EmptyString => true
  | String c r => negb (Ascii.eqb c apostrophe) && negb (Ascii.eqb c NUL) && plain r
  end.

(** [sqlite3_column_int]: the low 32 bits of the stored integer, signed. *)
Definition sqlite3_column_int (v : Z) : Z :=
  let r := v mod 2 ^ 32 in
  if r <? 2 ^ 31 then r else r - 2 ^ 32.

(** ** The engine on the statements the program issues *)

Inductive stmt :=
  | InsertFlights (fn an sp de : string) (total avail : Z)
  | UpdateFlights (an sp de : string) (total avail : Z) (fn : string)
  | DeleteUsersWhereFlight (fn : string)
  | DeleteFlights (fn : string)
  | InsertUsers (uid nm fn : string) (seat : Z)
  | UpdateAvailable (delta : Z) (fn : string)
  | UpdateUsers (nm fn : string) (seat : Z) (uid : string)
  | DeleteUsers (uid : string).

(** Some row of [us] other than [self] sits on seat [seat] of flight [fn]. *)
Definition seatHeld (fn : string) (seat : Z) (self : option string)
    (us : gmap string Users.row) : bool :=
  bool_decide (map_Exists (λ k r, Users.flightNumber r = fn
                                  ∧ Users.seatNumber r = seat
                                  ∧ Some k ≠ self) us).

(** [exec s db] is [None] when a constraint refuses [s] (nothing is
    written), and the new database otherwise.  [UPDATE] and [DELETE]
    that match no row succeed and write nothing. *)
Definition exec (s : stmt) (db : Database) : option Database :=
  match s with
  | InsertFlights fn an sp de total avail =>
      match flights db !! fn with
      | Some _ => None
      | None => Some (Db (<[fn := Flights.Row an sp de total avail]> (flights db)) (users db))
      end
  | UpdateFlights an sp de total avail fn =>
      Some (Db (alter (λ _, Flights.Row an sp de total avail) fn (flights db)) (users db))
  | DeleteUsersWhereFlight fn =>
      Some (Db (flights db)
               (filter (λ kr, Users.flightNumber kr.2 ≠ fn) (users db)))
  | DeleteFlights fn =>
      Some (Db (delete fn (flights db)) (users db))
  | InsertUsers uid nm fn seat =>
      match users db !! uid with
      | Some _ => None
      | None =>
          if seatHeld fn seat None (users db) then None
          else Some (Db (flights db) (<[uid := Users.Row nm fn seat]> (users db)))
      end
  | UpdateAvailable delta fn =>
      Some (Db (alter (Flights.setAvailable (λ a, a + delta)) fn (flights db)) (users db))
  | UpdateUsers nm fn seat uid =>
      match users db !! uid with
      | None => Some db
      | Some _ =>
          if seatHeld fn seat (Some uid) (users db) then None
          else Some (Db (flights db) (<[uid := Users.Row nm fn seat]> (users db)))
      end
  | DeleteUsers uid =>
      Some (Db (flights db) (delete uid (users db)))
  end.

(** [executeSQL]: run the statement the text denotes, report success.
    [None] when the text denotes no statement of the fragment. *)
Definition executeSQL (sql : option stmt) (db : Database) : option (bool * Database) :=
  s ← sql;
  Some (match exec s db with
        | Some db' => (true, db')
        | None => (false, db)
        end).

(** ** Entity validators (prepared statements, bound parameters) *)

Definition flightExists (flightNumber : string) (db : Database) : bool :=
  bool_decide (is_Some (flights db !! c_str flightNumber)).

Definition userExists (userID : string) (db : Database) : bool :=
  bool_decide (is_Some (users db !! c_str userID)).

Definition isSeatAvailable (flightNumber : string) (seatNumber : Z) (db : Database) : bool :=
  negb (seatHeld (c_str flightNumber) seatNumber None (users db)).

(** The seats booked on the flight, one entry for each row found.  The
    order in which the engine returns the rows is not modelled: the list
    follows the enumeration of the map. *)
Definition getTakenSeats (flightNumber : string) (db : Database) : list Z :=
  (λ kr, Users.seatNumber kr.2) <$>
    filter (λ kr : string * Users.row, Users.flightNumber kr.2 = c_str flightNumber)
           (map_to_list (users db)).

(** ** Statement texts built by concatenation *)

(** "INSERT INTO Flights VALUES ('fn', 'an', 'sp', 'de', total, avail);" *)
Definition insertFlightSql (f : Flight.t) : option stmt :=
  fn ← sql_literal (Flight.flightNumber f);
  an ← sql_literal (Flight.airlineName f);
  sp ← sql_literal (Flight.startingPoint f);
  de ← sql_literal (Flight.destination f);
  Some (InsertFlights fn an sp de (Flight.totalTickets f) (Flight.availableTickets f)).

(** "UPDATE Flights SET airlineName = 'an', ... WHERE flightNumber = 'fn';" *)
Definition updateFlightSql (f : Flight.t) (flightNumber : string) : option stmt :=
  an ← sql_literal (Flight.airlineName f);
  sp ← sql_literal (Flight.startingPoint f);
  de ← sql_literal (Flight.destination f);
  fn ← sql_literal flightNumber;
  Some (UpdateFlights an sp de (Flight.totalTickets f) (Flight.availableTickets f) fn).

(** "DELETE FROM Users WHERE flightNumber = 'fn';" *)
Definition deleteUsersSql (flightNumber : string) : option stmt :=
  DeleteUsersWhereFlight <$> sql_literal flightNumber.

(** "DELETE FROM Flights WHERE flightNumber = 'fn';" *)
Definition deleteFlightSql (flightNumber : string) : option stmt :=
  DeleteFlights <$> sql_literal flightNumber.

(** "INSERT INTO Users VALUES ('userID', 'name', 'fn', seat);" *)
Definition insertUserSql (u : User.t) : option stmt :=
  uid ← sql_literal (User.userID u);
  nm ← sql_literal (User.name u);
  fn ← sql_literal (User.flightNumber u);
  Some (InsertUsers uid nm fn (User.seatNumber u)).

(** "UPDATE Flights SET availableTickets = availableTickets + delta
     WHERE flightNumber = 'fn';" with [delta] one of 1, -1. *)
Definition updateAvailableSql (delta : Z) (flightNumber : string) : option stmt :=
  UpdateAvailable delta <$> sql_literal flightNumber.

(** "UPDATE Users SET name = 'nm', flightNumber = 'fn', seatNumber = seat
     WHERE userID = 'uid';" *)
Definition updateUserSql (u : User.t) (userID : string) : option stmt :=
  nm ← sql_literal (User.name u);
  fn ← sql_literal (User.flightNumber u);
  uid ← sql_literal userID;
  Some (UpdateUsers nm fn (User.seatNumber u) uid).

(** "DELETE FROM Users WHERE userID = 'uid';" *)
Definition deleteUserSql (userID : string) : option stmt :=
  DeleteUsers <$> sql_literal userID.

(** "SELECT flightNumber FROM Users WHERE userID = 'uid';" read into a
    [std::string] that starts empty and is assigned from the C string of
    the first row, when there is one. *)
Definition selectFlightNumber (userID : string) (db : Database) : option string :=
  uid ← sql_literal userID;
  Some (match users db !! uid with
        | Some r => c_str (Users.flightNumber r)
        | None => EmptyString
        end).

(** "SELECT availableTickets FROM Flights WHERE flightNumber = 'fn';"
    read into an [int] that starts at -1. *)
Definition selectAvailableTickets (flightNumber : string) (db : Database) : option Z :=
  fn ← sql_literal flightNumber;
  Some (match flights db !! fn with
        | Some r => sqlite3_column_int (Flights.availableTickets r)
        | None => -1
        end).

(** ** What an operation prints last *)

Inductive report :=
  | FlightAlreadyExists       (* Flight with this number already exists! *)
  | FlightAdded               (* Flight added successfully. *)
  | FlightNotFound            (* Flight not found! *)
  | FlightModified            (* Flight modified successfully. *)
  | FlightDeleted             (* Flight and associated users deleted successfully. *)
  | UserAlreadyExists         (* User with this ID already exists! *)
  | FlightDoesNotExist        (* Flight doesn't exist! *)
  | SeatTaken                 (* Seat N is already taken on this flight! *)
  | UserAdded                 (* User added successfully. *)
  | UserNotFound              (* User not found! *)
  | UserModified              (* User modified successfully. *)
  | UserDeleted               (* User deleted successfully. *)
  | ReservationFlightNotFound (* Flight not found. *)
  | NoAvailableTickets        (* No available tickets for this flight. *)
  | ReservationSuccessful     (* Reservation successful! Seat booked. *)
  | ReservationCanceled       (* Reservation canceled successfully. *)
  | SqlError.                 (* nothing on cout: executeSQL wrote "SQL error: ..." to cerr *)

#[global] Instance report_eq_dec : EqDecision report.
Proof. solve_decision. Defined.

(** The reports of an operation that stopped at one of its checks. *)
Definition validationFailure (r : report) : bool :=
  match r with
  | FlightAlreadyExists | FlightNotFound | UserAlreadyExists
  | FlightDoesNotExist | SeatTaken | UserNotFound
  | ReservationFlightNotFound | NoAvailableTickets => true
  | _ => false
  end.

(** The reports of an operation that ran to its closing line. *)
Definition succeeded (r : report) : bool :=
  match r with
  | FlightAdded | FlightModified | FlightDeleted | UserAdded | UserModified
  | UserDeleted | ReservationSuccessful | ReservationCanceled => true
  | _ => false
  end.

(** ** Reservation operations *)

Definition addFlight (flightNumber airlineName startingPoint destination : string)
    (totalTickets : Z) (db : Database) : option (Database * report) :=
  if flightExists flightNumber db then Some (db, FlightAlreadyExists)
  else
    let flight := Flight.Build flightNumber airlineName startingPoint destination
                               totalTickets totalTickets in
    '(ok, db') ← executeSQL (insertFlightSql flight) db;
    Some (db', if ok : bool then FlightAdded else SqlError).

Definition modifyFlight (flightNumber airlineName startingPoint destination : string)
    (totalTickets availableTickets : Z) (db : Database) : option (Database * report) :=
  if negb (flightExists flightNumber db) then Some (db, FlightNotFound)
  else
    let flight := Flight.Build flightNumber airlineName startingPoint destination
                               totalTickets availableTickets in
    '(ok, db') ← executeSQL (updateFlightSql flight flightNumber) db;
    Some (db', if ok : bool then FlightModified else SqlError).

Definition deleteFlight (flightNumber : string) (db : Database)
    : option (Database * report) :=
  if negb (flightExists flightNumber db) then Some (db, FlightNotFound)
  else
    '(ok1, db1) ← executeSQL (deleteUsersSql flightNumber) db;
    if ok1 : bool then
      '(ok2, db2) ← executeSQL (deleteFlightSql flightNumber) db1;
      Some (db2, if ok2 : bool then FlightDeleted else SqlError)
    else Some (db1, SqlError).

Definition addUser (userID name flightNumber : string) (seatNumber : Z)
    (db : Database) : option (Database * report) :=
  if userExists userID db then Some (db, UserAlreadyExists)
  else if negb (flightExists flightNumber db) then Some (db, FlightDoesNotExist)
  else if negb (isSeatAvailable flightNumber seatNumber db) then Some (db, SeatTaken)
  else
    let user := User.Build name userID flightNumber seatNumber in
    '(ok, db1) ← executeSQL (insertUserSql user) db;
    if ok : bool then
      '(_, db2) ← executeSQL (updateAvailableSql (-1) flightNumber) db1;
      Some (db2, UserAdded)
    else Some (db1, SqlError).

Definition modifyUser (userID name flightNumber : string) (seatNumber : Z)
    (db : Database) : option (Database * report) :=
  if negb (userExists userID db) then Some (db, UserNotFound)
  else if negb (flightExists flightNumber db) then Some (db, FlightDoesNotExist)
  else
    (* SELECT 1 FROM Users WHERE flightNumber = ? AND seatNumber = ? AND userID != ? *)
    let seatAvailable :=
      negb (seatHeld (c_str flightNumber) seatNumber (Some (c_str userID)) (users db)) in
    if negb seatAvailable then Some (db, SeatTaken)
    else
      let user := User.Build name userID flightNumber seatNumber in
      '(ok, db') ← executeSQL (updateUserSql user userID) db;
      Some (db', if ok : bool then UserModified else SqlError).

Definition deleteUser (userID : string) (db : Database) : option (Database * report) :=
  if negb (userExists userID db) then Some (db, UserNotFound)
  else
    (* Get flight number before deleting to update available tickets *)
    flightNumber ← selectFlightNumber userID db;
    '(ok, db1) ← executeSQL (deleteUserSql userID) db;
    if ok : bool then
      (* Increment available tickets if flight number was found *)
      if negb (String.eqb flightNumber EmptyString) then
        '(_, db2) ← executeSQL (updateAvailableSql 1 flightNumber) db1;
        Some (db2, UserDeleted)
      else Some (db1, UserDeleted)
    else Some (db1, SqlError).

Definition makeReservation (userID flightNumber name : string) (seatNumber : Z)
    (db : Database) : option (Database * report) :=
  if userExists userID db then Some (db, UserAlreadyExists)
  else
    availableTickets ← selectAvailableTickets flightNumber db;
    if availableTickets =? -1 then Some (db, ReservationFlightNotFound)
    else if availableTickets <=? 0 then Some (db, NoAvailableTickets)
    else if negb (isSeatAvailable flightNumber seatNumber db) then Some (db, SeatTaken)
    else
      let user := User.Build name userID flightNumber seatNumber in
      '(ok, db1) ← executeSQL (insertUserSql user) db;
      if ok : bool then
        '(_, db2) ← executeSQL (updateAvailableSql (-1) flightNumber) db1;
        Some (db2, ReservationSuccessful)
      else Some (db1, SqlError).

Definition cancelReservation (userID : string) (db : Database)
    : option (Database * report) :=
  if negb (userExists userID db) then Some (db, UserNotFound)
  else
    (* Get flight number before deleting *)
    flightNumber ← selectFlightNumber userID db;
    '(ok, db1) ← executeSQL (deleteUserSql userID) db;
    if ok : bool then
      (* Update available tickets if flight number was found *)
      if negb (String.eqb flightNumber EmptyString) then
        '(_, db2) ← executeSQL (updateAvailableSql 1 flightNumber) db1;
        Some (db2, ReservationCanceled)
      else Some (db1, ReservationCanceled)
    else Some (db1, SqlError).

(** ** The menu: one operation with what was typed at its prompts *)

Inductive operation :=
  | AddFlight (flightNumber airlineName startingPoint destination : string)
              (totalTickets : Z)
  | ModifyFlight (flightNumber airlineName startingPoint destination : string)
                 (totalTickets availableTickets : Z)
  | DeleteFlight (flightNumber : string)
  | AddUser (userID name flightNumber : string) (seatNumber : Z)
  | ModifyUser (userID name flightNumber : string) (seatNumber : Z)
  | DeleteUser (userID : string)
  | MakeReservation (userID flightNumber name : string) (seatNumber : Z)
  | CancelReservation (userID : string).

Definition run (op : operation) (db : Database) : option (Database * report) :=
  match op with
  | AddFlight fn an sp de total => addFlight fn an sp de total db
  | ModifyFlight fn an sp de total avail => modifyFlight fn an sp de total avail db
  | DeleteFlight fn => deleteFlight fn db
  | AddUser uid nm fn seat => addUser uid nm fn seat db
  | ModifyUser uid nm fn seat => modifyUser uid nm fn seat db
  | DeleteUser uid => deleteUser uid db
  | MakeReservation uid fn nm seat => makeReservation uid fn nm seat db
  | CancelReservation uid => cancelReservation uid db
  end.

(** The states the menu can reach from the freshly created database. *)
Inductive reachable : Database → Prop :=
  | reachable_init : reachable initializeDatabase
  | reachable_step op db db' r :
      reachable db → run op db = Some (db', r) → reachable db'.

(** Running a script of operations; stops with [None] where [run] does. *)
Fixpoint runAll (ops : list operation) (db : Database) : option Database :=
  match ops with
  | [] => Some db
  | op :: ops' => '(db', _) ← run op db; runAll ops' db'
  end.

(** UNIQUE(flightNumber, seatNumber) as a property of the table. *)
Definition seatUnique (us : gmap string Users.row) : Prop :=
  ∀ u1 u2 r1 r2,
    us !! u1 = Some r1 → us !! u2 = Some r2 →
    Users.flightNumber r1 = Users.flightNumber r2 →
    Users.seatNumber r1 = Users.seatNumber r2 →
    u1 = u2.

(** The closing line of [cancelReservation] where [deleteUser] has its own. *)
Definition cancelLine (r : report) : report :=
  match r with
  | UserDeleted => ReservationCanceled
  | _ => r
  end.

(** ** Databases and scripts used as examples *)

(** The scenario of the specification: flight AA100 with two tickets,
    U1 booked on seat 1, U2 refused on the same seat. *)
Definition scenarioAA100 : list operation :=
  [AddFlight "AA100" "Delta" "Lahore" "Karachi" 2;
   AddUser "U1" "Ali" "AA100" 1;
   AddUser "U2" "Sara" "AA100" 1].

Definition dbAA100 : Database :=
  Db {[ "AA100" := Flights.Row "Delta" "Lahore" "Karachi" 2 1 ]}
     {[ "U1" := Users.Row "Ali" "AA100" 1 ]}.

(** Two flights and one passenger, booked on the first. *)
Definition dbTwoFlights : Database :=
  Db {[ "AA100" := Flights.Row "Delta" "Lahore" "Karachi" 2 1;
        "BB200" := Flights.Row "Emirates" "Dubai" "London" 3 3 ]}
     {[ "U1" := Users.Row "Ali" "AA100" 1 ]}.

(** A flight with five tickets and one passenger whose userID was typed
    with a doubled apostrophe. *)
Definition scenarioDoubled : list operation :=
  [AddFlight "F1" "Delta" "Lahore" "Karachi" 5;
   AddUser "U''1" "Ali" "F1" 1].

Definition dbDoubled : Database :=
  Db {[ "F1" := Flights.Row "Delta" "Lahore" "Karachi" 5 4 ]}
     {[ "U'1" := Users.Row "Ali" "F1" 1 ]}.

(** Two flights whose numbers were typed with doubled apostrophes, and a
    passenger booked by typing the stored number of the second. *)
Definition scenarioTwoDoubled : list operation :=
  [AddFlight "A''1" "Delta" "Lahore" "Karachi" 5;
   AddFlight "A''''1" "Emirates" "Dubai" "London" 3;
   AddUser "U1" "Ali" "A''1" 1].

Definition dbTwoDoubled : Database :=
  Db {[ "A'1" := Flights.Row "Delta" "Lahore" "Karachi" 5 4;
        "A''1" := Flights.Row "Emirates" "Dubai" "London" 3 3 ]}
     {[ "U1" := Users.Row "Ali" "A'1" 1 ]}.

(** A flight added with an empty line as its number, and one booking. *)
Definition scenarioEmptyNumber : list operation :=
  [AddFlight "" "Delta" "Lahore" "Karachi" 2;
   AddUser "U1" "Ali" "" 1].

Definition dbEmptyNumber : Database :=
  Db {[ "" := Flights.Row "Delta" "Lahore" "Karachi" 2 1 ]}
     {[ "U1" := Users.Row "Ali" "" 1 ]}.

(** The flight with the empty number, before its first booking. *)
Definition dbEmptyOpen : Database :=
  Db {[ "" := Flights.Row "Delta" "Lahore" "Karachi" 2 2 ]} ∅.

(** Two passengers whose userIDs were typed with doubled apostrophes. *)
Definition scenarioTwoUsers : list operation :=
  [AddFlight "F1" "Delta" "Lahore" "Karachi" 5;
   AddUser "U''1" "Ali" "F1" 1;
   AddUser "U''''1" "Sara" "F1" 2].

Definition dbTwoUsers : Database :=
  Db {[ "F1" := Flights.Row "Delta" "Lahore" "Karachi" 5 3 ]}
     {[ "U'1" := Users.Row "Ali" "F1" 1; "U''1" := Users.Row "Sara" "F1" 2 ]}.

(** A flight with no ticket left to sell. *)
Definition dbSoldOut : Database :=
  Db {[ "AA100" := Flights.Row "Delta" "Lahore" "Karachi" 1 0 ]}
     {[ "U1" := Users.Row "Ali" "AA100" 1 ]}.

(** A flight stored as A''1 with no ticket, next to a flight stored as
    A'1 with five. *)
Definition scenarioShadow (total : Z) : list operation :=
  [AddFlight "A''1" "Emirates" "Dubai" "London" 5;
   AddFlight "A''''1" "Delta" "Lahore" "Karachi" total].

Definition dbShadow (total : Z) : Database :=
  Db {[ "A''1" := Flights.Row "Delta" "Lahore" "Karachi" total total;
        "A'1" := Flights.Row "Emirates" "Dubai" "London" 5 5 ]}
     ∅.

(** A flight whose counter was set to -1 through modifyFlight. *)
Definition scenarioMinusOne : list operation :=
  [AddFlight "AA100" "Delta" "Lahore" "Karachi" 2;
   AddUser "U1" "Ali" "AA100" 1;
   ModifyFlight "AA100" "Delta" "Lahore" "Karachi" 2 (-1)].

Definition dbMinusOne : Database :=
  Db {[ "AA100" := Flights.Row "Delta" "Lahore" "Karachi" 2 (-1) ]}
     {[ "U1" := Users.Row "Ali" "AA100" 1 ]}.

(** ** Properties of a database that the operations are measured against *)

(** The closing line of [makeReservation] where [addUser] has its own. *)
Definition reservationLine (r : report) : report :=
  match r with
  | UserAdded => ReservationSuccessful
  | FlightDoesNotExist => ReservationFlightNotFound
  | _ => r
  end.

(** Every booking names a flight that is in table [Flights]. *)
Definition refIntegrity (db : Database) : Prop :=
  ∀ uid u, users db !! uid = Some u →
    is_Some (flights db !! Users.flightNumber u).

(** The number of rows of [Users] booked on flight [fn]. *)
Definition bookings (fn : string) (us : gmap string Users.row) : nat :=
  size (filter (λ kr : string * Users.row, Users.flightNumber kr.2 = fn) us).

(** availableTickets is totalTickets less the bookings, on every flight. *)
Definition countersConsistent (db : Database) : Prop :=
  ∀ fn f, flights db !! fn = Some f →
    Flights.availableTickets f + Z.of_nat (bookings fn (users db))
    = Flights.totalTickets f.

(** Text that is plain and not the empty line. *)
Definition plainNonEmpty (s : string) : bool :=
  plain s && negb (String.eqb s EmptyString).

(** All the text typed for the operation is plain. *)
Definition plainOp (op : operation) : bool :=
  match op with
  | AddFlight fn an sp de _ => plain fn && plain an && plain sp && plain de
  | ModifyFlight fn an sp de _ _ => plain fn && plain an && plain sp && plain de
  | DeleteFlight fn => plain fn
  | AddUser uid nm fn _ => plain uid && plain nm && plain fn
  | ModifyUser uid nm fn _ => plain uid && plain nm && plain fn
  | DeleteUser uid => plain uid
  | MakeReservation uid fn nm _ => plain uid && plain fn && plain nm
  | CancelReservation uid => plain uid
  end.

(** The operations that book and cancel, and that open and close flights,
    typed in plain text with flight numbers that are not empty: all but
    modifyFlight and modifyUser. *)
Definition bookingOp (op : operation) : bool :=
  match op with
  | AddFlight fn an sp de _ => plainNonEmpty fn && plain an && plain sp && plain de
  | DeleteFlight fn => plain fn
  | AddUser uid nm fn _ => plain uid && plain nm && plain fn
  | DeleteUser uid => plain uid
  | MakeReservation uid fn nm _ => plain uid && plain fn && plain nm
  | CancelReservation uid => plain uid
  | ModifyFlight _ _ _ _ _ _ | ModifyUser _ _ _ _ => false
  end.

(** The operations on passengers: they have no business with the columns
    of a flight other than its counter. *)
Definition userOp (op : operation) : bool :=
  match op with
  | AddUser _ _ _ _ | ModifyUser _ _ _ _ | DeleteUser _
  | MakeReservation _ _ _ _ | CancelReservation _ => true
  | _ => false
  end.

(** Two rows of [Flights] that differ at most in availableTickets, and
    there by at most one. *)
Definition counterMovedByOne (f f' : Flights.row) : Prop :=
  Flights.airlineName f' = Flights.airlineName f
  ∧ Flights.startingPoint f' = Flights.startingPoint f
  ∧ Flights.destination f' = Flights.destination f
  ∧ Flights.totalTickets f' = Flights.totalTickets f
  ∧ Z.abs (Flights.availableTickets f' - Flights.availableTickets f) ≤ 1.

(** The flight numbers on file are plain and not empty. *)
Definition flightNumbersTidy (db : Database) : Prop :=
  ∀ fn f, flights db !! fn = Some f → plainNonEmpty fn = true.

(** The books are in order: bookings name flights on file, flight numbers
    are tidy, and every counter agrees with the bookings. *)
Definition wellKept (db : Database) : Prop :=
  refIntegrity db ∧ flightNumbersTidy db ∧ countersConsistent db.

(** ** Proof steps *)

(** Take apart a hypothesis that an operation returned: every check, and
    every [executeSQL] on the way. *)
Ltac run_cases H :=
  repeat match type of H with
  | context [executeSQL ?q ?d] =>
      let ok := fresh "ok" in
      let d' := fresh "db" in
      let E := fresh "Esql" in
      destruct (executeSQL q d) as [[ok d']|] eqn:E; simpl in H; [|discriminate H]
  | context [selectFlightNumber ?u ?d] =>
      let E := fresh "Esel" in
      destruct (selectFlightNumber u d) eqn:E; simpl in H; [|discriminate H]
  | context [selectAvailableTickets ?f ?d] =>
      let E := fresh "Esel" in
      destruct (selectAvailableTickets f d) eqn:E; simpl in H; [|discriminate H]
  | context [if ?b then _ else _] =>
      let E := fresh "Echk" in
      destruct b eqn:E; simpl in H
  end; simplify_eq.

(** ** The menu reaches what its scripts produce *)

Lemma runAll_reachable ops : ∀ db db',
  reachable db → runAll ops db = Some db' → reachable db'.
Proof.
  induction ops as [|op ops IH]; intros db db' Hr H; simpl in H.
  - by simplify_eq.
  - destruct (run op db) as [[d r]|] eqn:E; [|done]. simpl in H.
    eapply IH; [|done]. by eapply reachable_step.
Qed.

Lemma scenarioAA100_runs : runAll scenarioAA100 initializeDatabase = Some dbAA100.
Proof. vm_compute. reflexivity. Qed.

Lemma scenarioDoubled_runs : runAll scenarioDoubled initializeDatabase = Some dbDoubled.
Proof. vm_compute. reflexivity. Qed.

Lemma scenarioTwoDoubled_runs :
  runAll scenarioTwoDoubled initializeDatabase = Some dbTwoDoubled.
Proof. vm_compute. reflexivity. Qed.

Lemma scenarioEmptyNumber_runs :
  runAll scenarioEmptyNumber initializeDatabase = Some dbEmptyNumber.
Proof. vm_compute. reflexivity. Qed.

Lemma scenarioTwoUsers_runs :
  runAll scenarioTwoUsers initializeDatabase = Some dbTwoUsers.
Proof. vm_compute. reflexivity. Qed.

Lemma scenarioShadow_runs_0 :
  runAll (scenarioShadow 0) initializeDatabase = Some (dbShadow 0).
Proof. vm_compute. reflexivity. Qed.

Lemma scenarioShadow_runs_m1 :
  runAll (scenarioShadow (-1)) initializeDatabase = Some (dbShadow (-1)).
Proof. vm_compute. reflexivity. Qed.

Lemma scenarioMinusOne_runs :
  runAll scenarioMinusOne initializeDatabase = Some dbMinusOne.
Proof. vm_compute. reflexivity. Qed.

(** ** Text lemmas *)

Lemma plain_cons c r :
  plain (String c r) = true ↔ c ≠ apostrophe ∧ c ≠ NUL ∧ plain r = true.
Proof.
  simpl. rewrite !andb_true_iff, !negb_true_iff.
  destruct (Ascii.eqb_spec c apostrophe), (Ascii.eqb_spec c NUL); intuition congruence.
Qed.

Lemma plain_c_str s : plain s = true → c_str s = s.
Proof.
  induction s as [|c r IH]; [done|].
  intros (_ & Hn & Hr)%plain_cons. simpl.
  destruct (Ascii.eqb_spec c NUL); [done|]. by rewrite IH.
Qed.

Lemma plain_sql_literal s : plain s = true → sql_literal s = Some s.
Proof.
  induction s as [|c r IH]; [done|].
  intros (Ha & Hn & Hr)%plain_cons. simpl.
  destruct (Ascii.eqb_spec c apostrophe); [done|].
  destruct (Ascii.eqb_spec c NUL); [done|]. by rewrite IH.
Qed.

(** ** Engine lemmas *)

Lemma insert_as_alter {A} (m : gmap string A) k x :
  is_Some (m !! k) → <[k := x]> m = alter (λ _, x) k m.
Proof.
  intros [y Hy]. apply map_eq. intros j.
  rewrite lookup_insert, lookup_alter. case_decide; [|done]. by rewrite Hy.
Qed.

Lemma alter_as_insert {A} (f : A → A) (m : gmap string A) k x :
  m !! k = Some x → alter f k m = <[k := f x]> m.
Proof.
  intros Hx. apply map_eq. intros j.
  rewrite lookup_insert, lookup_alter. case_decide; [|done]. by rewrite Hx.
Qed.

Lemma seatHeld_true fn seat self us :
  seatHeld fn seat self us = true ↔
  ∃ k r, us !! k = Some r ∧ Users.flightNumber r = fn
         ∧ Users.seatNumber r = seat ∧ Some k ≠ self.
Proof.
  unfold seatHeld. rewrite bool_decide_eq_true. unfold map_Exists.
  split; intros (k & r & H); exists k, r; tauto.
Qed.

Lemma seatHeld_false fn seat self us :
  seatHeld fn seat self us = false ↔
  ∀ k r, us !! k = Some r → Users.flightNumber r = fn →
         Users.seatNumber r = seat → Some k = self.
Proof.
  rewrite <- not_true_iff_false, seatHeld_true. split.
  - intros Hn k r Hk Hf Hs. destruct (decide (Some k = self)); [done|].
    exfalso. apply Hn. by exists k, r.
  - intros H (k & r & Hk & Hf & Hs & Hne). by apply Hne, (H k r).
Qed.

Lemma executeSQL_inv q db ok db' :
  executeSQL q db = Some (ok, db') →
  ∃ s, q = Some s ∧
       ((ok = true ∧ exec s db = Some db')
        ∨ (ok = false ∧ exec s db = None ∧ db' = db)).
Proof.
  unfold executeSQL. destruct q as [s|]; simpl; [|done].
  destruct (exec s db) as [d|] eqn:E; intros [= <- <-]; exists s; eauto.
Qed.

Lemma executeSQL_ok q s db db' :
  q = Some s → exec s db = Some db' → executeSQL q db = Some (true, db').
Proof. intros -> E. unfold executeSQL. simpl. by rewrite E. Qed.

Lemma flightExists_true fn db :
  flightExists fn db = true ↔ is_Some (flights db !! c_str fn).
Proof. unfold flightExists. apply bool_decide_eq_true. Qed.

Lemma flightExists_false fn db :
  flightExists fn db = false ↔ flights db !! c_str fn = None.
Proof.
  unfold flightExists. rewrite bool_decide_eq_false. symmetry. apply eq_None_not_Some.
Qed.

Lemma userExists_true uid db :
  userExists uid db = true ↔ is_Some (users db !! c_str uid).
Proof. unfold userExists. apply bool_decide_eq_true. Qed.

Lemma userExists_false uid db :
  userExists uid db = false ↔ users db !! c_str uid = None.
Proof.
  unfold userExists. rewrite bool_decide_eq_false. symmetry. apply eq_None_not_Some.
Qed.

(** ** Invariants carried from the engine to the menu *)

Section Invariant.
Variable P : Database → Prop.
Hypothesis exec_keeps : ∀ s db db', P db → exec s db = Some db' → P db'.

Lemma executeSQL_keeps q db ok db' :
  P db → executeSQL q db = Some (ok, db') → P db'.
Proof.
  intros HP (s & _ & [[_ E]|(_ & _ & ->)])%executeSQL_inv; eauto.
Qed.

Lemma run_keeps op db db' r : P db → run op db = Some (db', r) → P db'.
Proof.
  intros HP H.
  destruct op; simpl in H;
    unfold addFlight, modifyFlight, deleteFlight, addUser, modifyUser,
      deleteUser, makeReservation, cancelReservation in H;
    run_cases H; subst; eauto using executeSQL_keeps.
Qed.

Lemma reachable_keeps db : P initializeDatabase → reachable db → P db.
Proof. intros H0. induction 1; eauto using run_keeps. Qed.
End Invariant.

Lemma exec_seatUnique s db db' :
  seatUnique (users db) → exec s db = Some db' → seatUnique (users db').
Proof.
  intros Hu He. destruct s; simpl in He.
  - destruct (flights db !! fn); simplify_eq. done.
  - by simplify_eq.
  - simplify_eq. simpl. intros u1 u2 r1 r2 [H1 _]%map_lookup_filter_Some
      [H2 _]%map_lookup_filter_Some. eauto.
  - by simplify_eq.
  - destruct (users db !! uid) eqn:Eu; [done|].
    destruct (seatHeld fn seat None (users db)) eqn:Eh; simplify_eq. simpl.
    rewrite seatHeld_false in Eh.
    intros u1 u2 r1 r2 H1 H2 Hf Hs.
    apply lookup_insert_Some in H1 as [[<- <-]|[N1 H1]];
      apply lookup_insert_Some in H2 as [[<- <-]|[N2 H2]]; simpl in *.
    + done.
    + by specialize (Eh u2 r2 H2 (eq_sym Hf) (eq_sym Hs)).
    + by specialize (Eh u1 r1 H1 Hf Hs).
    + eauto.
  - by simplify_eq.
  - destruct (users db !! uid) eqn:Eu; [|by simplify_eq].
    destruct (seatHeld fn seat (Some uid) (users db)) eqn:Eh; simplify_eq. simpl.
    rewrite seatHeld_false in Eh.
    intros u1 u2 r1 r2 H1 H2 Hf Hs.
    apply lookup_insert_Some in H1 as [[<- <-]|[N1 H1]];
      apply lookup_insert_Some in H2 as [[<- <-]|[N2 H2]]; simpl in *.
    + done.
    + specialize (Eh u2 r2 H2 (eq_sym Hf) (eq_sym Hs)). by simplify_eq.
    + specialize (Eh u1 r1 H1 Hf Hs). by simplify_eq.
    + eauto.
  - simplify_eq. simpl. intros u1 u2 r1 r2 [_ H1]%lookup_delete_Some
      [_ H2]%lookup_delete_Some. eauto.
Qed.

(** ** The claims of the specification *)

(** C1. Seat uniqueness: in every state the menu reaches from the fresh
    database no two rows of [Users] share flight and seat, and every
    operation (addFlight, modifyFlight, deleteFlight, addUser, modifyUser,
    deleteUser, makeReservation, cancelReservation) that returns keeps
    the property. *)
Theorem seat_uniqueness_invariant :
  (∀ db, reachable db → seatUnique (users db)) ∧
  (∀ op db db' r,
      seatUnique (users db) → run op db = Some (db', r) → seatUnique (users db')).
Proof.
  split.
  - intros db Hr.
    apply (reachable_keeps (λ d, seatUnique (users d))); [apply exec_seatUnique| |done].
    intros u1 u2 r1 r2 H. cbn in H. by rewrite lookup_empty in H.
  - intros op db db' r.
    apply (run_keeps (λ d, seatUnique (users d))). apply exec_seatUnique.
Qed.

Lemma seat_uniqueness_invariant_witness :
  reachable dbAA100 ∧ seatUnique (users dbAA100).
Proof.
  assert (H : reachable dbAA100).
  { apply (runAll_reachable scenarioAA100 initializeDatabase);
      [apply reachable_init | vm_compute; reflexivity]. }
  split; [exact H | exact (proj1 seat_uniqueness_invariant dbAA100 H)].
Defined.

(** C4. Validation-failure atomicity: an operation that stops at one of
    its checks (entity not found, duplicate key, seat taken, no ticket
    left) returns the database it was given, both tables and every
    counter.  So does addUser for a flightNumber that does not exist: it
    stops there, no row is created and no counter moves. *)
Theorem validation_failure_atomic :
  (∀ op db db' r,
      run op db = Some (db', r) → validationFailure r = true → db' = db)
  ∧ (∀ userID name flightNumber seatNumber db,
       userExists userID db = false → flightExists flightNumber db = false →
       addUser userID name flightNumber seatNumber db
       = Some (db, FlightDoesNotExist)).
Proof.
  split.
  - intros op db db' r H Hv.
    destruct op; simpl in H;
      unfold addFlight, modifyFlight, deleteFlight, addUser, modifyUser,
        deleteUser, makeReservation, cancelReservation in H;
      run_cases H; simpl in Hv; done.
  - intros userID name flightNumber seatNumber db Hu Hf.
    unfold addUser. by rewrite Hu, Hf.
Qed.

Lemma validation_failure_atomic_witness :
  run (AddUser "U2" "Sara" "AA100" 1) dbAA100 = Some (dbAA100, SeatTaken)
  ∧ dbAA100 = dbAA100.
Proof.
  assert (H : run (AddUser "U2" "Sara" "AA100" 1) dbAA100 = Some (dbAA100, SeatTaken))
    by (vm_compute; reflexivity).
  split; [exact H|].
  exact (proj1 validation_failure_atomic _ _ _ _ H eq_refl).
Defined.

(** C8. cancelReservation and deleteUser are the same operation: on every
    userID and every database they leave the same database, succeed and
    fail together, and print the same line but for the wording of the
    closing one. *)
Theorem cancelReservation_is_deleteUser userID db :
  fst <$> cancelReservation userID db = fst <$> deleteUser userID db
  ∧ (succeeded ∘ snd) <$> cancelReservation userID db
    = (succeeded ∘ snd) <$> deleteUser userID db
  ∧ snd <$> cancelReservation userID db
    = (cancelLine ∘ snd) <$> deleteUser userID db.
Proof.
  unfold cancelReservation, deleteUser.
  destruct (userExists userID db); simpl; [|done].
  destruct (selectFlightNumber userID db) as [fn|]; simpl; [|done].
  destruct (executeSQL (deleteUserSql userID) db) as [[[] db1]|]; simpl; [|done..].
  destruct (String.eqb fn EmptyString); simpl; [done|].
  by destruct (executeSQL (updateAvailableSql 1 fn) db1) as [[ok db2]|].
Qed.

(** C6. modifyUser frame: when modifyUser succeeds, table [Flights] is
    what it was, so no availableTickets counter moved, neither the old
    flight's nor the new one's; in [Users] only the name, flightNumber and
    seatNumber of the addressed row are overwritten. *)
Theorem modifyUser_frame userID name flightNumber seatNumber db db' :
  modifyUser userID name flightNumber seatNumber db = Some (db', UserModified) →
  flights db' = flights db
  ∧ (∀ f, Flights.availableTickets <$> flights db' !! f
          = Flights.availableTickets <$> flights db !! f)
  ∧ ∃ uid nm fn,
      sql_literal userID = Some uid ∧ sql_literal name = Some nm
      ∧ sql_literal flightNumber = Some fn
      ∧ users db' = alter (λ _, Users.Row nm fn seatNumber) uid (users db).
Proof.
  intros H. unfold modifyUser in H. run_cases H.
  apply executeSQL_inv in Esql as (s & Hs & [[_ He]|(? & _ & _)]); [|done].
  unfold updateUserSql in Hs. simpl in Hs.
  destruct (sql_literal name) as [nm|]; [|done].
  destruct (sql_literal flightNumber) as [fn|]; [|done].
  destruct (sql_literal userID) as [uid|]; [|done].
  simpl in Hs. simplify_eq. simpl in He.
  assert (flights db' = flights db ∧
          users db' = alter (λ _, Users.Row nm fn seatNumber) uid (users db))
    as [Hf Hu].
  { destruct (users db !! uid) eqn:Eu.
    - destruct (seatHeld fn seatNumber (Some uid) (users db)); simplify_eq.
      simpl. split; [done|]. by apply insert_as_alter.
    - simplify_eq. split; [done|]. by rewrite alter_id'. }
  split; [done|]. split; [by rewrite Hf|]. by exists uid, nm, fn.
Qed.

Lemma modifyUser_frame_witness :
  ∃ db', modifyUser "U1" "Ali" "BB200" 7 dbTwoFlights = Some (db', UserModified)
         ∧ users db' !! "U1" = Some (Users.Row "Ali" "BB200" 7)
         ∧ flights db' = flights dbTwoFlights.
Proof.
  eexists. split; [vm_compute; reflexivity|]. split; [vm_compute; reflexivity|].
  refine (proj1 (modifyUser_frame "U1" "Ali" "BB200" 7 dbTwoFlights _ _)).
  vm_compute. reflexivity.
Defined.

(** C2 (amended). addFlight: when a flight with the typed flightNumber
    exists, addFlight prints its refusal and writes nothing.  Otherwise,
    when the four typed texts hold no apostrophe and no NUL, it inserts
    the flight with availableTickets equal to totalTickets, leaves [Users]
    alone, and flightExists answers true for that flightNumber
    afterwards. *)
Theorem addFlight_contract flightNumber airlineName startingPoint destination
    totalTickets db :
  (flightExists flightNumber db = true →
   addFlight flightNumber airlineName startingPoint destination totalTickets db
   = Some (db, FlightAlreadyExists))
  ∧ (flightExists flightNumber db = false →
     plain flightNumber = true → plain airlineName = true →
     plain startingPoint = true → plain destination = true →
     ∃ db',
       addFlight flightNumber airlineName startingPoint destination totalTickets db
       = Some (db', FlightAdded)
       ∧ flights db' = <[flightNumber :=
                           Flights.Row airlineName startingPoint destination
                                       totalTickets totalTickets]> (flights db)
       ∧ users db' = users db
       ∧ flightExists flightNumber db' = true).
Proof.
  unfold addFlight. split; intros He; rewrite He; [done|].
  intros Hfn Han Hsp Hde.
  apply flightExists_false in He. rewrite (plain_c_str _ Hfn) in He.
  unfold insertFlightSql, executeSQL. simpl.
  rewrite !plain_sql_literal by done. simpl. rewrite He. simpl.
  eexists. split; [done|]. simpl. split; [done|]. split; [done|].
  apply flightExists_true. simpl.
  rewrite (plain_c_str _ Hfn), lookup_insert_eq. by eexists.
Qed.

Lemma addFlight_contract_witness :
  ∃ db',
    addFlight "AA100" "Delta" "Lahore" "Karachi" 2 initializeDatabase
    = Some (db', FlightAdded)
    ∧ flights db' = <[ "AA100" := Flights.Row "Delta" "Lahore" "Karachi" 2 2 ]>
                      (flights initializeDatabase)
    ∧ users db' = users initializeDatabase
    ∧ flightExists "AA100" db' = true.
Proof.
  apply (proj2 (addFlight_contract "AA100" "Delta" "Lahore" "Karachi" 2
                  initializeDatabase)); reflexivity.
Defined.

(** C2 as stated fails on a flightNumber with a doubled apostrophe: the
    statement text stores the flight under the value of the literal, and
    flightExists, which binds the typed text, does not find it. *)
Lemma addFlight_doubled_apostrophe :
  flightExists "A''1" initializeDatabase = false
  ∧ ∃ db',
      addFlight "A''1" "Delta" "Lahore" "Karachi" 2 initializeDatabase
      = Some (db', FlightAdded)
      ∧ flightExists "A''1" db' = false
      ∧ flights db' !! "A'1" = Some (Flights.Row "Delta" "Lahore" "Karachi" 2 2).
Proof.
  split; [reflexivity|]. eexists.
  split; [vm_compute; reflexivity|]. split; vm_compute; reflexivity.
Qed.

(** addUser on plain text, past its three checks. *)
Lemma addUser_plain userID name flightNumber seatNumber db f :
  userExists userID db = false → flights db !! flightNumber = Some f →
  isSeatAvailable flightNumber seatNumber db = true →
  plain userID = true → plain name = true → plain flightNumber = true →
  addUser userID name flightNumber seatNumber db
  = Some (Db (<[flightNumber := Flights.setAvailable (λ a, a - 1) f]> (flights db))
             (<[userID := Users.Row name flightNumber seatNumber]> (users db)),
          UserAdded).
Proof.
  intros Hu Hf Hs Puid Pnm Pfn. unfold addUser.
  assert (flightExists flightNumber db = true) as ->.
  { apply flightExists_true. rewrite (plain_c_str _ Pfn). by eexists. }
  rewrite Hu, Hs. simpl.
  apply userExists_false in Hu. rewrite (plain_c_str _ Puid) in Hu.
  unfold isSeatAvailable in Hs. rewrite (plain_c_str _ Pfn) in Hs.
  apply negb_true_iff in Hs.
  unfold insertUserSql, updateAvailableSql, executeSQL. simpl.
  rewrite !plain_sql_literal by done. simpl. rewrite Hu, Hs. simpl.
  by rewrite (alter_as_insert _ _ _ f).
Qed.

(** C3 (amended). addUser: it stops at a check when the userID exists,
    or the flight is absent, or the seat is taken.  When none of these
    holds and the typed userID, name and flightNumber hold no apostrophe
    and no NUL, it succeeds, inserts the one row (userID, name, F, S) and
    lowers F's availableTickets by exactly 1, whatever the counter was. *)
Theorem addUser_contract userID name flightNumber seatNumber db :
  (userExists userID db = true ∨ flightExists flightNumber db = false
   ∨ isSeatAvailable flightNumber seatNumber db = false →
   ∃ r, addUser userID name flightNumber seatNumber db = Some (db, r)
        ∧ validationFailure r = true)
  ∧ (userExists userID db = false → flightExists flightNumber db = true →
     isSeatAvailable flightNumber seatNumber db = true →
     plain userID = true → plain name = true → plain flightNumber = true →
     ∃ db' f,
       addUser userID name flightNumber seatNumber db = Some (db', UserAdded)
       ∧ users db !! userID = None
       ∧ users db' = <[userID := Users.Row name flightNumber seatNumber]> (users db)
       ∧ flights db !! flightNumber = Some f
       ∧ flights db' = <[flightNumber :=
                           Flights.setAvailable (λ a, a - 1) f]> (flights db)).
Proof.
  unfold addUser. split.
  - intros H.
    destruct (userExists userID db); [by eexists|].
    destruct (flightExists flightNumber db); [|by eexists].
    destruct (isSeatAvailable flightNumber seatNumber db); [|by eexists].
    by destruct H as [|[|]].
  - intros Hu Hf Hs Puid Pnm Pfn.
    apply flightExists_true in Hf as [f Hf]. rewrite (plain_c_str _ Pfn) in Hf.
    eexists _, f. split; [by apply addUser_plain|]. simpl.
    apply userExists_false in Hu. by rewrite (plain_c_str _ Puid) in Hu.
Qed.

Lemma addUser_contract_witness :
  ∃ db' f,
    addUser "U2" "Sara" "AA100" 2 dbAA100 = Some (db', UserAdded)
    ∧ users dbAA100 !! "U2" = None
    ∧ users db' = <[ "U2" := Users.Row "Sara" "AA100" 2 ]> (users dbAA100)
    ∧ flights dbAA100 !! "AA100" = Some f
    ∧ flights db' = <[ "AA100" := Flights.setAvailable (λ a, a - 1) f ]>
                      (flights dbAA100).
Proof.
  apply (proj2 (addUser_contract "U2" "Sara" "AA100" 2 dbAA100)); reflexivity.
Defined.

(** C3 as stated fails on a userID with a doubled apostrophe: userExists
    does not know the typed userID, flight F1 exists with 4 tickets left
    and seat 2 is free, yet the INSERT collides on the primary key with
    the row stored under the literal's value, and addUser writes nothing. *)
Lemma addUser_doubled_apostrophe :
  runAll scenarioDoubled initializeDatabase = Some dbDoubled
  ∧ userExists "U''1" dbDoubled = false
  ∧ Flights.availableTickets <$> flights dbDoubled !! "F1" = Some 4
  ∧ isSeatAvailable "F1" 2 dbDoubled = true
  ∧ addUser "U''1" "Sara" "F1" 2 dbDoubled = Some (dbDoubled, SqlError).
Proof. repeat split; vm_compute; reflexivity. Qed.

(** C5 (amended). deleteFlight: for a flightNumber that does not exist it
    prints its refusal and writes nothing.  For an existing flight F whose
    number holds no apostrophe and no NUL it deletes every row of [Users]
    that references F and then F itself: flightExists F is false
    afterwards, the users of F are gone (userExists is false for them),
    every other flight and every other user is as before. *)
Theorem deleteFlight_contract flightNumber db :
  (flightExists flightNumber db = false →
   deleteFlight flightNumber db = Some (db, FlightNotFound))
  ∧ (flightExists flightNumber db = true → plain flightNumber = true →
     ∃ db',
       deleteFlight flightNumber db = Some (db', FlightDeleted)
       ∧ flights db' = delete flightNumber (flights db)
       ∧ flightExists flightNumber db' = false
       ∧ (∀ uid u, users db !! uid = Some u →
            Users.flightNumber u = flightNumber →
            users db' !! uid = None
            ∧ (c_str uid = uid → userExists uid db' = false))
       ∧ (∀ uid u, users db !! uid = Some u →
            Users.flightNumber u ≠ flightNumber → users db' !! uid = Some u)
       ∧ (∀ uid, users db !! uid = None → users db' !! uid = None)).
Proof.
  unfold deleteFlight. split; intros He; rewrite He; [done|].
  intros Pfn. simpl.
  unfold deleteUsersSql, deleteFlightSql, executeSQL.
  rewrite !plain_sql_literal by done. simpl.
  eexists. split; [done|]. simpl. split; [done|].
  split; [|split; [|split]].
  - apply flightExists_false. simpl.
    by rewrite (plain_c_str _ Pfn), lookup_delete_eq.
  - intros uid u Hu Hf.
    assert (filter (λ kr : string * Users.row, Users.flightNumber kr.2 ≠ flightNumber)
                   (users db) !! uid = None) as Hnone.
    { apply map_lookup_filter_None. right. intros u' Hu'. simplify_eq. simpl.
      by intros []. }
    split; [done|]. intros Hc. apply userExists_false. simpl. by rewrite Hc.
  - intros uid u Hu Hf. by apply map_lookup_filter_Some.
  - intros uid Hu. apply map_lookup_filter_None. by left.
Qed.

Lemma deleteFlight_contract_witness :
  ∃ db',
    deleteFlight "AA100" dbTwoFlights = Some (db', FlightDeleted)
    ∧ flights db' = delete "AA100" (flights dbTwoFlights)
    ∧ flightExists "AA100" db' = false
    ∧ userExists "U1" db' = false.
Proof.
  destruct (proj2 (deleteFlight_contract "AA100" dbTwoFlights) eq_refl eq_refl)
    as (db' & Hrun & Hfl & Hex & Hgone & _).
  exists db'. repeat split; try done.
  apply (Hgone "U1" (Users.Row "Ali" "AA100" 1)); reflexivity.
Defined.

(** C5 as stated fails on a flightNumber with a doubled apostrophe: the
    flight typed exists and is still there after deleteFlight reported
    success, while another flight, and the passenger booked on it, were
    deleted. *)
Lemma deleteFlight_doubled_apostrophe :
  runAll scenarioTwoDoubled initializeDatabase = Some dbTwoDoubled
  ∧ flightExists "A''1" dbTwoDoubled = true
  ∧ ∃ db',
      deleteFlight "A''1" dbTwoDoubled = Some (db', FlightDeleted)
      ∧ flightExists "A''1" db' = true
      ∧ flights dbTwoDoubled !! "A'1"
        = Some (Flights.Row "Delta" "Lahore" "Karachi" 5 4)
      ∧ flights db' !! "A'1" = None
      ∧ users db' = ∅.
Proof.
  split; [vm_compute; reflexivity|]. split; [reflexivity|]. eexists.
  split; [vm_compute; reflexivity|]. repeat split; vm_compute; reflexivity.
Qed.

(** C7 (amended). deleteUser: for a userID that does not exist it prints
    its refusal and writes nothing.  For an existing user whose userID and
    stored flightNumber hold no apostrophe and no NUL, and whose
    flightNumber is not the empty text, it deletes that row and raises by
    exactly 1 the availableTickets of the flight the row referenced (read
    before the deletion); every other row of both tables is as before. *)
Theorem deleteUser_contract userID db :
  (userExists userID db = false → deleteUser userID db = Some (db, UserNotFound))
  ∧ (∀ u, users db !! userID = Some u →
       plain userID = true → plain (Users.flightNumber u) = true →
       Users.flightNumber u ≠ EmptyString →
       ∃ db',
         deleteUser userID db = Some (db', UserDeleted)
         ∧ users db' = delete userID (users db)
         ∧ flights db' = alter (Flights.setAvailable (λ a, a + 1))
                               (Users.flightNumber u) (flights db)).
Proof.
  unfold deleteUser. split.
  - by intros ->.
  - intros u Hu Puid Pfn Hne.
    assert (userExists userID db = true) as ->.
    { apply userExists_true. rewrite (plain_c_str _ Puid). by eexists. }
    simpl. unfold selectFlightNumber, deleteUserSql, executeSQL.
    rewrite (plain_sql_literal _ Puid). simpl. rewrite Hu.
    rewrite (plain_c_str _ Pfn).
    apply String.eqb_neq in Hne. rewrite Hne. simpl.
    unfold updateAvailableSql. rewrite (plain_sql_literal _ Pfn). simpl.
    by eexists.
Qed.

Lemma deleteUser_contract_witness :
  ∃ db',
    deleteUser "U1" dbAA100 = Some (db', UserDeleted)
    ∧ users db' = delete "U1" (users dbAA100)
    ∧ flights db' = alter (Flights.setAvailable (λ a, a + 1)) "AA100" (flights dbAA100)
    ∧ Flights.availableTickets <$> flights db' !! "AA100" = Some 2.
Proof.
  destruct (proj2 (deleteUser_contract "U1" dbAA100) (Users.Row "Ali" "AA100" 1))
    as (db' & Hrun & Hu & Hf);
    [reflexivity | reflexivity | reflexivity | discriminate |].
  exists db'. repeat split; try done. rewrite Hf. vm_compute. reflexivity.
Defined.

(** C7 as stated fails twice.  On the flight whose number is the empty
    text, deleteUser deletes the row and leaves the counter at 1: the
    guard that skips the increment cannot tell this flight from a lookup
    that found nothing.  On a userID with a doubled apostrophe, the row
    of the typed user stays and the row of another user is deleted. *)
Lemma deleteUser_empty_flightNumber :
  (runAll scenarioEmptyNumber initializeDatabase = Some dbEmptyNumber
   ∧ userExists "U1" dbEmptyNumber = true
   ∧ ∃ db',
       deleteUser "U1" dbEmptyNumber = Some (db', UserDeleted)
       ∧ users db' = ∅
       ∧ Flights.availableTickets <$> flights dbEmptyNumber !! "" = Some 1
       ∧ Flights.availableTickets <$> flights db' !! "" = Some 1)
  ∧ (runAll scenarioTwoUsers initializeDatabase = Some dbTwoUsers
     ∧ userExists "U''1" dbTwoUsers = true
     ∧ ∃ db',
         deleteUser "U''1" dbTwoUsers = Some (db', UserDeleted)
         ∧ userExists "U''1" db' = true
         ∧ users db' !! "U'1" = None).
Proof.
  split; (split; [vm_compute; reflexivity|]); (split; [reflexivity|]); eexists;
    (split; [vm_compute; reflexivity|]); repeat split; vm_compute; reflexivity.
Qed.

(** C9 (amended). Capacity-check asymmetry, for a new userID and typed
    texts that hold no apostrophe and no NUL: makeReservation stops when
    the flight cannot be found and when its availableTickets is 0; addUser
    has no capacity check, so on an existing flight with availableTickets
    0 and a free seat addUser succeeds and leaves the counter at -1 while
    makeReservation on the same input stops and writes nothing. *)
Theorem capacity_check_asymmetry userID flightNumber name seatNumber db :
  (userExists userID db = false → plain flightNumber = true →
   flights db !! flightNumber = None →
   makeReservation userID flightNumber name seatNumber db
   = Some (db, ReservationFlightNotFound))
  ∧ (∀ f, userExists userID db = false →
       plain userID = true → plain name = true → plain flightNumber = true →
       flights db !! flightNumber = Some f → Flights.availableTickets f = 0 →
       isSeatAvailable flightNumber seatNumber db = true →
       makeReservation userID flightNumber name seatNumber db
       = Some (db, NoAvailableTickets)
       ∧ ∃ db',
           addUser userID name flightNumber seatNumber db = Some (db', UserAdded)
           ∧ Flights.availableTickets <$> flights db' !! flightNumber = Some (-1)).
Proof.
  split.
  - intros Hu Pfn Hf. unfold makeReservation, selectAvailableTickets.
    rewrite Hu, (plain_sql_literal _ Pfn). simpl. by rewrite Hf.
  - intros f Hu Puid Pnm Pfn Hf Hav Hs. split.
    + unfold makeReservation, selectAvailableTickets.
      rewrite Hu, (plain_sql_literal _ Pfn). simpl. by rewrite Hf, Hav.
    + eexists. split; [by apply (addUser_plain _ _ _ _ _ f)|]. simpl.
      rewrite lookup_insert_eq. simpl. by rewrite Hav.
Qed.

Lemma capacity_check_asymmetry_witness :
  makeReservation "U2" "AA100" "Sara" 2 dbSoldOut = Some (dbSoldOut, NoAvailableTickets)
  ∧ ∃ db',
      addUser "U2" "Sara" "AA100" 2 dbSoldOut = Some (db', UserAdded)
      ∧ Flights.availableTickets <$> flights db' !! "AA100" = Some (-1).
Proof.
  apply (proj2 (capacity_check_asymmetry "U2" "AA100" "Sara" 2 dbSoldOut)
           (Flights.Row "Delta" "Lahore" "Karachi" 1 0)); reflexivity.
Defined.

(** C9 as stated fails on a flightNumber with a doubled apostrophe: the
    flight typed exists with availableTickets 0, the seat is free and the
    userID new, yet makeReservation reads the counter of another flight
    and books, and addUser lowers that other flight's counter, not this
    one's. *)
Lemma capacity_check_doubled_apostrophe :
  runAll (scenarioShadow 0) initializeDatabase = Some (dbShadow 0)
  ∧ flightExists "A''1" (dbShadow 0) = true
  ∧ Flights.availableTickets <$> flights (dbShadow 0) !! "A''1" = Some 0
  ∧ userExists "U1" (dbShadow 0) = false
  ∧ isSeatAvailable "A''1" 1 (dbShadow 0) = true
  ∧ (∃ db', makeReservation "U1" "A''1" "Ali" 1 (dbShadow 0)
            = Some (db', ReservationSuccessful))
  ∧ (∃ db', addUser "U1" "Ali" "A''1" 1 (dbShadow 0) = Some (db', UserAdded)
            ∧ Flights.availableTickets <$> flights db' !! "A''1" = Some 0).
Proof.
  repeat split; try (vm_compute; reflexivity);
    eexists; repeat split; vm_compute; reflexivity.
Qed.

(** C10 (amended). Sentinel conflation in makeReservation: the counter is
    read into a variable that starts at -1 and is tested against -1.  For
    a new userID and a flightNumber that holds no apostrophe and no NUL,
    an existing flight whose stored availableTickets is -1 gets the report
    of a flight that was not found, and nothing is written, exactly as on
    any database where that flight is absent; modifyFlight, which takes
    any integer, leads to such a state. *)
Theorem makeReservation_sentinel userID flightNumber name seatNumber db f :
  userExists userID db = false → plain flightNumber = true →
  flights db !! flightNumber = Some f → Flights.availableTickets f = -1 →
  makeReservation userID flightNumber name seatNumber db
  = Some (db, ReservationFlightNotFound)
  ∧ (∀ db0, userExists userID db0 = false → flights db0 !! flightNumber = None →
       makeReservation userID flightNumber name seatNumber db0
       = Some (db0, ReservationFlightNotFound))
  ∧ (∀ db0 airlineName startingPoint destination totalTickets,
       flightExists flightNumber db0 = true →
       plain airlineName = true → plain startingPoint = true →
       plain destination = true →
       ∃ db1,
         modifyFlight flightNumber airlineName startingPoint destination
                      totalTickets (-1) db0 = Some (db1, FlightModified)
         ∧ Flights.availableTickets <$> flights db1 !! flightNumber = Some (-1)).
Proof.
  intros Hu Pfn Hf Hav. split; [|split].
  - unfold makeReservation, selectAvailableTickets.
    rewrite Hu, (plain_sql_literal _ Pfn). simpl. by rewrite Hf, Hav.
  - intros db0 Hu0 Hf0. unfold makeReservation, selectAvailableTickets.
    rewrite Hu0, (plain_sql_literal _ Pfn). simpl. by rewrite Hf0.
  - intros db0 an sp de total He Pan Psp Pde. unfold modifyFlight.
    rewrite He. simpl. unfold updateFlightSql, executeSQL. simpl.
    rewrite !plain_sql_literal by done. simpl.
    eexists. split; [done|]. simpl.
    apply flightExists_true in He as [f0 Hf0]. rewrite (plain_c_str _ Pfn) in Hf0.
    by rewrite lookup_alter_eq, Hf0.
Qed.

Lemma makeReservation_sentinel_witness :
  makeReservation "U2" "AA100" "Sara" 2 dbMinusOne
  = Some (dbMinusOne, ReservationFlightNotFound).
Proof.
  refine (proj1 (makeReservation_sentinel "U2" "AA100" "Sara" 2 dbMinusOne
                   (Flights.Row "Delta" "Lahore" "Karachi" 2 (-1)) _ _ _ _));
    reflexivity.
Defined.

(** C10 as stated fails twice.  On a flightNumber with a doubled
    apostrophe the flight typed exists with stored availableTickets -1,
    yet makeReservation reads the counter of another flight and books.
    And for a userID that exists the first check answers, whatever the
    counter of the flight. *)
Lemma makeReservation_sentinel_doubled_apostrophe :
  (runAll (scenarioShadow (-1)) initializeDatabase = Some (dbShadow (-1))
   ∧ flightExists "A''1" (dbShadow (-1)) = true
   ∧ Flights.availableTickets <$> flights (dbShadow (-1)) !! "A''1" = Some (-1)
   ∧ ∃ db', makeReservation "U1" "A''1" "Ali" 1 (dbShadow (-1))
            = Some (db', ReservationSuccessful))
  ∧ (runAll scenarioMinusOne initializeDatabase = Some dbMinusOne
     ∧ Flights.availableTickets <$> flights dbMinusOne !! "AA100" = Some (-1)
     ∧ makeReservation "U1" "AA100" "Ali" 2 dbMinusOne
       = Some (dbMinusOne, UserAlreadyExists)).
Proof.
  repeat split; try (vm_compute; reflexivity).
  eexists. vm_compute. reflexivity.
Qed.

(** ** Further properties of the operations *)

Lemma modifyUser_plain userID name flightNumber seatNumber db :
  userExists userID db = true → flightExists flightNumber db = true →
  seatHeld flightNumber seatNumber (Some userID) (users db) = false →
  plain userID = true → plain name = true → plain flightNumber = true →
  modifyUser userID name flightNumber seatNumber db
  = Some (Db (flights db)
             (<[userID := Users.Row name flightNumber seatNumber]> (users db)),
          UserModified).
Proof.
  intros Hu Hf Hs Puid Pnm Pfn. unfold modifyUser.
  rewrite Hu, Hf. simpl. rewrite (plain_c_str _ Puid), (plain_c_str _ Pfn), Hs. simpl.
  unfold updateUserSql, executeSQL. simpl.
  rewrite !plain_sql_literal by done. simpl.
  apply userExists_true in Hu as [u Hu]. rewrite (plain_c_str _ Puid) in Hu.
  by rewrite Hu, Hs.
Qed.

Lemma deleteUser_plain userID db u :
  users db !! userID = Some u →
  plain userID = true → plain (Users.flightNumber u) = true →
  Users.flightNumber u ≠ EmptyString →
  deleteUser userID db
  = Some (Db (alter (Flights.setAvailable (λ a, a + 1)) (Users.flightNumber u)
                    (flights db))
             (delete userID (users db)),
          UserDeleted).
Proof.
  intros Hu Puid Pfn Hne. unfold deleteUser.
  assert (userExists userID db = true) as ->.
  { apply userExists_true. rewrite (plain_c_str _ Puid). by eexists. }
  simpl. unfold selectFlightNumber, deleteUserSql, executeSQL.
  rewrite (plain_sql_literal _ Puid). simpl. rewrite Hu.
  rewrite (plain_c_str _ Pfn).
  apply String.eqb_neq in Hne. rewrite Hne. simpl.
  unfold updateAvailableSql. by rewrite (plain_sql_literal _ Pfn).
Qed.

Lemma addFlight_plain flightNumber airlineName startingPoint destination
    totalTickets db :
  flightExists flightNumber db = false →
  plain flightNumber = true → plain airlineName = true →
  plain startingPoint = true → plain destination = true →
  addFlight flightNumber airlineName startingPoint destination totalTickets db
  = Some (Db (<[flightNumber := Flights.Row airlineName startingPoint destination
                                            totalTickets totalTickets]> (flights db))
             (users db),
          FlightAdded).
Proof.
  intros He Pfn Pan Psp Pde. unfold addFlight. rewrite He.
  apply flightExists_false in He. rewrite (plain_c_str _ Pfn) in He.
  unfold insertFlightSql, executeSQL. simpl.
  rewrite !plain_sql_literal by done. simpl. by rewrite He.
Qed.

Lemma deleteFlight_plain flightNumber db :
  flightExists flightNumber db = true → plain flightNumber = true →
  deleteFlight flightNumber db
  = Some (Db (delete flightNumber (flights db))
             (filter (λ kr : string * Users.row,
                        Users.flightNumber kr.2 ≠ flightNumber) (users db)),
          FlightDeleted).
Proof.
  intros He Pfn. unfold deleteFlight. rewrite He. simpl.
  unfold deleteUsersSql, deleteFlightSql, executeSQL.
  by rewrite !plain_sql_literal by done.
Qed.

Lemma modifyFlight_plain flightNumber airlineName startingPoint destination
    totalTickets availableTickets db :
  flightExists flightNumber db = true →
  plain flightNumber = true → plain airlineName = true →
  plain startingPoint = true → plain destination = true →
  modifyFlight flightNumber airlineName startingPoint destination
               totalTickets availableTickets db
  = Some (Db (<[flightNumber := Flights.Row airlineName startingPoint destination
                                            totalTickets availableTickets]>
                (flights db))
             (users db),
          FlightModified).
Proof.
  intros He Pfn Pan Psp Pde. unfold modifyFlight. rewrite He. simpl.
  unfold updateFlightSql, executeSQL. simpl.
  rewrite !plain_sql_literal by done. simpl.
  apply flightExists_true in He. rewrite (plain_c_str _ Pfn) in He.
  by rewrite insert_as_alter.
Qed.

(** X1. modifyFlight: for a flightNumber that does not exist it prints
    its refusal and writes nothing.  For an existing flight typed in plain
    text it overwrites airline, route and both counters with what was
    typed, whatever the integers (no comparison of availableTickets with
    totalTickets or with the bookings), and leaves every other flight and
    table [Users] as they were. *)
Theorem modifyFlight_contract flightNumber airlineName startingPoint destination
    totalTickets availableTickets db :
  (flightExists flightNumber db = false →
   modifyFlight flightNumber airlineName startingPoint destination
                totalTickets availableTickets db = Some (db, FlightNotFound))
  ∧ (flightExists flightNumber db = true →
     plain flightNumber = true → plain airlineName = true →
     plain startingPoint = true → plain destination = true →
     ∃ db',
       modifyFlight flightNumber airlineName startingPoint destination
                    totalTickets availableTickets db = Some (db', FlightModified)
       ∧ flights db' !! flightNumber
         = Some (Flights.Row airlineName startingPoint destination
                             totalTickets availableTickets)
       ∧ (∀ fn, fn ≠ flightNumber → flights db' !! fn = flights db !! fn)
       ∧ users db' = users db).
Proof.
  split.
  - intros He. unfold modifyFlight. by rewrite He.
  - intros He Pfn Pan Psp Pde. eexists.
    split; [by apply modifyFlight_plain|]. simpl.
    split; [by rewrite lookup_insert_eq|]. split; [|done].
    intros fn Hne. by rewrite lookup_insert_ne.
Qed.

Lemma modifyFlight_contract_witness :
  ∃ db',
    modifyFlight "AA100" "Delta" "Lahore" "Karachi" 2 9 dbAA100
    = Some (db', FlightModified)
    ∧ flights db' !! "AA100" = Some (Flights.Row "Delta" "Lahore" "Karachi" 2 9)
    ∧ users db' = users dbAA100.
Proof.
  destruct (proj2 (modifyFlight_contract "AA100" "Delta" "Lahore" "Karachi" 2 9
                     dbAA100)) as (db' & Hrun & Hrow & _ & Hus); try reflexivity.
  by exists db'.
Defined.

(** X2. modifyUser stops, writing nothing, when the userID is absent,
    when the new flight is absent, and when the new seat on the new
    flight is held by another passenger.  Otherwise, on plain text, it
    overwrites the passenger's row and nothing else. *)
Theorem modifyUser_contract userID name flightNumber seatNumber db :
  (userExists userID db = false →
   modifyUser userID name flightNumber seatNumber db = Some (db, UserNotFound))
  ∧ (userExists userID db = true → flightExists flightNumber db = false →
     modifyUser userID name flightNumber seatNumber db
     = Some (db, FlightDoesNotExist))
  ∧ (userExists userID db = true → flightExists flightNumber db = true →
     plain userID = true → plain flightNumber = true →
     (∃ other u, other ≠ userID ∧ users db !! other = Some u
                 ∧ Users.flightNumber u = flightNumber
                 ∧ Users.seatNumber u = seatNumber) →
     modifyUser userID name flightNumber seatNumber db = Some (db, SeatTaken))
  ∧ (userExists userID db = true → flightExists flightNumber db = true →
     plain userID = true → plain flightNumber = true → plain name = true →
     (∀ other u, users db !! other = Some u →
                 Users.flightNumber u = flightNumber →
                 Users.seatNumber u = seatNumber → other = userID) →
     modifyUser userID name flightNumber seatNumber db
     = Some (Db (flights db)
                (<[userID := Users.Row name flightNumber seatNumber]> (users db)),
             UserModified)).
Proof.
  split; [|split; [|split]].
  - intros Hu. unfold modifyUser. by rewrite Hu.
  - intros Hu Hf. unfold modifyUser. by rewrite Hu, Hf.
  - intros Hu Hf Puid Pfn (other & u & Hne & Ho & Hfu & Hsu).
    unfold modifyUser. rewrite Hu, Hf. simpl.
    rewrite (plain_c_str _ Puid), (plain_c_str _ Pfn).
    assert (seatHeld flightNumber seatNumber (Some userID) (users db) = true) as ->.
    { apply seatHeld_true. exists other, u. repeat split; try done. congruence. }
    done.
  - intros Hu Hf Puid Pfn Pnm Hfree. apply modifyUser_plain; try done.
    apply seatHeld_false. intros k r Hk Hfr Hsr. f_equal. by eapply Hfree.
Qed.

Lemma modifyUser_contract_witness :
  modifyUser "U1" "Ali Khan" "BB200" 3 dbTwoFlights
  = Some (Db (flights dbTwoFlights)
             (<[ "U1" := Users.Row "Ali Khan" "BB200" 3 ]> (users dbTwoFlights)),
          UserModified).
Proof.
  apply (proj2 (proj2 (proj2
           (modifyUser_contract "U1" "Ali Khan" "BB200" 3 dbTwoFlights))));
    try reflexivity.
  intros other u Ho Hf Hs.
  destruct (decide (other = "U1")) as [|Hne]; [done|].
  unfold dbTwoFlights in Ho. simpl in Ho.
  by rewrite lookup_singleton_ne in Ho.
Defined.

Lemma seatUnique_singleton uid u : seatUnique {[ uid := u ]}.
Proof.
  intros u1 u2 r1 r2 [-> _]%lookup_singleton_Some [-> _]%lookup_singleton_Some.
  done.
Qed.

(** X3. A passenger keeps the seat while modifyUser changes the name:
    the seat check of modifyUser leaves the passenger's own row out, so
    the seat that isSeatAvailable reports as taken does not stop it. *)
Theorem modifyUser_keeps_own_seat userID name db u :
  seatUnique (users db) → users db !! userID = Some u →
  is_Some (flights db !! Users.flightNumber u) →
  plain userID = true → plain name = true →
  plain (Users.flightNumber u) = true →
  isSeatAvailable (Users.flightNumber u) (Users.seatNumber u) db = false
  ∧ modifyUser userID name (Users.flightNumber u) (Users.seatNumber u) db
    = Some (Db (flights db)
               (<[userID := Users.Row name (Users.flightNumber u)
                                      (Users.seatNumber u)]> (users db)),
            UserModified).
Proof.
  intros Huniq Hu Hf Puid Pnm Pfn. split.
  - unfold isSeatAvailable. rewrite (plain_c_str _ Pfn).
    apply negb_false_iff, seatHeld_true. by exists userID, u.
  - apply modifyUser_plain; try done.
    + apply userExists_true. rewrite (plain_c_str _ Puid). by eexists.
    + apply flightExists_true. by rewrite (plain_c_str _ Pfn).
    + apply seatHeld_false. intros k r Hk Hfr Hsr. f_equal.
      by apply (Huniq k userID r u).
Qed.

Lemma modifyUser_keeps_own_seat_witness :
  isSeatAvailable "AA100" 1 dbAA100 = false
  ∧ modifyUser "U1" "Ali Khan" "AA100" 1 dbAA100
    = Some (Db (flights dbAA100)
               (<[ "U1" := Users.Row "Ali Khan" "AA100" 1 ]> (users dbAA100)),
            UserModified).
Proof.
  apply (modifyUser_keeps_own_seat "U1" "Ali Khan" dbAA100
           (Users.Row "Ali" "AA100" 1)); try reflexivity.
  - apply seatUnique_singleton.
  - by eexists.
Defined.

(** X4. makeReservation is addUser behind a capacity check: for a plain
    flightNumber, when the flight is absent or its counter reads above 0,
    the two leave the same database and stop or succeed together, line
    for line but for the wording. *)
Theorem makeReservation_as_addUser userID flightNumber name seatNumber db :
  plain flightNumber = true →
  (∀ f, flights db !! flightNumber = Some f →
        0 < sqlite3_column_int (Flights.availableTickets f)) →
  makeReservation userID flightNumber name seatNumber db
  = prod_map id reservationLine <$> addUser userID name flightNumber seatNumber db.
Proof.
  intros Pfn Hpos. unfold makeReservation, addUser.
  destruct (userExists userID db); [done|].
  unfold selectAvailableTickets, flightExists.
  rewrite (plain_sql_literal _ Pfn), (plain_c_str _ Pfn). simpl.
  destruct (flights db !! flightNumber) as [f|] eqn:Ef; simpl.
  - specialize (Hpos f eq_refl).
    destruct (Z.eqb_spec (sqlite3_column_int (Flights.availableTickets f)) (-1)); [lia|].
    destruct (Z.leb_spec (sqlite3_column_int (Flights.availableTickets f)) 0); [lia|].
    destruct (isSeatAvailable flightNumber seatNumber db); simpl; [|done].
    destruct (executeSQL _ db) as [[[] db1]|]; simpl; [|done..].
    by destruct (executeSQL _ db1) as [[ok db2]|].
  - done.
Qed.

Lemma makeReservation_as_addUser_witness :
  makeReservation "U2" "AA100" "Sara" 2 dbAA100
  = prod_map id reservationLine <$> addUser "U2" "Sara" "AA100" 2 dbAA100.
Proof.
  apply makeReservation_as_addUser; [reflexivity|].
  intros f Hf. unfold dbAA100 in Hf. simpl in Hf.
  apply lookup_singleton_Some in Hf as [_ <-]. reflexivity.
Defined.

Lemma map_to_list_filter_perm {A} (P : string * A → Prop)
    `{!∀ x, Decision (P x)} (m : gmap string A) :
  map_to_list (filter P m) ≡ₚ filter P (map_to_list m).
Proof.
  apply NoDup_Permutation.
  - apply NoDup_map_to_list.
  - apply NoDup_filter, NoDup_map_to_list.
  - intros [k x]. rewrite elem_of_map_to_list, list_elem_of_filter,
      elem_of_map_to_list, map_lookup_filter_Some. tauto.
Qed.

Lemma elem_of_getTakenSeats flightNumber seat db :
  seat ∈ getTakenSeats flightNumber db
  ↔ isSeatAvailable flightNumber seat db = false.
Proof.
  unfold getTakenSeats, isSeatAvailable.
  rewrite negb_false_iff, seatHeld_true, list_elem_of_fmap. split.
  - intros ([k u] & -> & [Hf Hin]%list_elem_of_filter).
    apply elem_of_map_to_list in Hin. simpl in *. by exists k, u.
  - intros (k & u & Hk & Hf & Hs & _). exists (k, u). split; [done|].
    apply list_elem_of_filter. split; [done|]. by apply elem_of_map_to_list.
Qed.

(** X5. getTakenSeats and isSeatAvailable agree: a seat is in the list
    shown for a flight exactly when isSeatAvailable refuses it; a flight
    without bookings shows the empty list. *)
Theorem getTakenSeats_spec flightNumber db :
  (∀ seat, seat ∈ getTakenSeats flightNumber db
           ↔ isSeatAvailable flightNumber seat db = false)
  ∧ ((∀ uid u, users db !! uid = Some u →
               Users.flightNumber u ≠ c_str flightNumber)
     ↔ getTakenSeats flightNumber db = []).
Proof.
  split; [intros seat; apply elem_of_getTakenSeats|]. split.
  - intros Hnone.
    remember (getTakenSeats flightNumber db) as seats eqn:E.
    destruct seats as [|seat l]; [done|]. exfalso.
    assert (seat ∈ getTakenSeats flightNumber db) as Hin by (rewrite <- E; left).
    apply elem_of_getTakenSeats in Hin. unfold isSeatAvailable in Hin.
    apply negb_false_iff, seatHeld_true in Hin as (k & u & Hk & Hf & _).
    by apply (Hnone k u).
  - intros Hnil uid u Hu Hf.
    assert (Users.seatNumber u ∈ getTakenSeats flightNumber db) as Hin.
    { apply elem_of_getTakenSeats. unfold isSeatAvailable.
      apply negb_false_iff, seatHeld_true. by exists uid, u. }
    rewrite Hnil in Hin. by apply elem_of_nil in Hin.
Qed.

(** X6. Under the uniqueness of seats, getTakenSeats lists no seat twice
    and has one entry for each booking on the flight. *)
Theorem getTakenSeats_NoDup flightNumber db :
  seatUnique (users db) →
  NoDup (getTakenSeats flightNumber db)
  ∧ length (getTakenSeats flightNumber db)
    = bookings (c_str flightNumber) (users db).
Proof.
  intros Huniq. unfold getTakenSeats. split.
  - apply NoDup_fmap_2_strong; [|apply NoDup_filter, NoDup_map_to_list].
    intros [k1 u1] [k2 u2] [Hf1 H1]%list_elem_of_filter
      [Hf2 H2]%list_elem_of_filter Hs.
    apply elem_of_map_to_list in H1, H2. simpl in *.
    assert (k1 = k2) as -> by (apply (Huniq k1 k2 u1 u2); congruence).
    congruence.
  - rewrite length_fmap. unfold bookings.
    rewrite <- length_map_to_list. symmetry.
    apply Permutation_length, map_to_list_filter_perm.
Qed.

Lemma getTakenSeats_NoDup_witness :
  NoDup (getTakenSeats "AA100" dbAA100)
  ∧ length (getTakenSeats "AA100" dbAA100) = bookings (c_str "AA100") (users dbAA100).
Proof.
  apply getTakenSeats_NoDup. apply seatUnique_singleton.
Defined.

Lemma getTakenSeats_spec_witness : getTakenSeats "AA100" initializeDatabase = [].
Proof.
  apply (proj2 (getTakenSeats_spec "AA100" initializeDatabase)).
  intros uid u Hu. unfold initializeDatabase in Hu. simpl in Hu.
  by rewrite lookup_empty in Hu.
Defined.

(** ** What an operation on plain text did, read off its result *)

Lemma addFlight_plain_inv fn an sp de total db db' r :
  plain fn = true → plain an = true → plain sp = true → plain de = true →
  addFlight fn an sp de total db = Some (db', r) →
  (db' = db ∧ r = FlightAlreadyExists)
  ∨ (flights db !! fn = None
     ∧ db' = Db (<[fn := Flights.Row an sp de total total]> (flights db)) (users db)
     ∧ r = FlightAdded).
Proof.
  intros Pfn Pan Psp Pde H.
  destruct (flightExists fn db) eqn:He.
  - unfold addFlight in H. rewrite He in H. simplify_eq. by left.
  - rewrite addFlight_plain in H by done. simplify_eq. right.
    apply flightExists_false in He. by rewrite (plain_c_str _ Pfn) in He.
Qed.

Lemma modifyFlight_plain_inv fn an sp de total avail db db' r :
  plain fn = true → plain an = true → plain sp = true → plain de = true →
  modifyFlight fn an sp de total avail db = Some (db', r) →
  (db' = db ∧ r = FlightNotFound)
  ∨ (is_Some (flights db !! fn)
     ∧ db' = Db (<[fn := Flights.Row an sp de total avail]> (flights db)) (users db)
     ∧ r = FlightModified).
Proof.
  intros Pfn Pan Psp Pde H.
  destruct (flightExists fn db) eqn:He.
  - rewrite modifyFlight_plain in H by done. simplify_eq. right.
    apply flightExists_true in He. by rewrite (plain_c_str _ Pfn) in He.
  - unfold modifyFlight in H. rewrite He in H. simpl in H. simplify_eq. by left.
Qed.

Lemma deleteFlight_plain_inv fn db db' r :
  plain fn = true → deleteFlight fn db = Some (db', r) →
  (db' = db ∧ r = FlightNotFound)
  ∨ (is_Some (flights db !! fn)
     ∧ db' = Db (delete fn (flights db))
                (filter (λ kr : string * Users.row, Users.flightNumber kr.2 ≠ fn)
                        (users db))
     ∧ r = FlightDeleted).
Proof.
  intros Pfn H.
  destruct (flightExists fn db) eqn:He.
  - rewrite deleteFlight_plain in H by done. simplify_eq. right.
    apply flightExists_true in He. by rewrite (plain_c_str _ Pfn) in He.
  - unfold deleteFlight in H. rewrite He in H. simpl in H. simplify_eq. by left.
Qed.

Lemma addUser_plain_inv uid nm fn seat db db' r :
  plain uid = true → plain nm = true → plain fn = true →
  addUser uid nm fn seat db = Some (db', r) →
  (db' = db ∧ succeeded r = false)
  ∨ (∃ f, flights db !! fn = Some f ∧ users db !! uid = None
          ∧ seatHeld fn seat None (users db) = false
          ∧ db' = Db (<[fn := Flights.setAvailable (λ a, a - 1) f]> (flights db))
                     (<[uid := Users.Row nm fn seat]> (users db))
          ∧ r = UserAdded).
Proof.
  intros Puid Pnm Pfn H.
  destruct (userExists uid db) eqn:Hu;
    [unfold addUser in H; rewrite Hu in H; simplify_eq; by left|].
  destruct (flightExists fn db) eqn:Hf;
    [|unfold addUser in H; rewrite Hu, Hf in H; simpl in H; simplify_eq; by left].
  destruct (isSeatAvailable fn seat db) eqn:Hs;
    [|unfold addUser in H; rewrite Hu, Hf, Hs in H; simpl in H; simplify_eq; by left].
  pose proof Hf as Hf'.
  apply flightExists_true in Hf' as [f Hf']. rewrite (plain_c_str _ Pfn) in Hf'.
  rewrite (addUser_plain _ _ _ _ _ f) in H by done. simplify_eq. right.
  exists f. repeat split; try done.
  - apply userExists_false in Hu. by rewrite (plain_c_str _ Puid) in Hu.
  - unfold isSeatAvailable in Hs. rewrite (plain_c_str _ Pfn) in Hs.
    by apply negb_true_iff in Hs.
Qed.

Lemma makeReservation_plain_inv uid fn nm seat db db' r :
  plain uid = true → plain fn = true → plain nm = true →
  makeReservation uid fn nm seat db = Some (db', r) →
  (db' = db ∧ succeeded r = false)
  ∨ (∃ f, flights db !! fn = Some f ∧ users db !! uid = None
          ∧ seatHeld fn seat None (users db) = false
          ∧ 0 < sqlite3_column_int (Flights.availableTickets f)
          ∧ db' = Db (<[fn := Flights.setAvailable (λ a, a - 1) f]> (flights db))
                     (<[uid := Users.Row nm fn seat]> (users db))
          ∧ r = ReservationSuccessful).
Proof.
  intros Puid Pfn Pnm H. unfold makeReservation in H.
  destruct (userExists uid db) eqn:Hu; [simplify_eq; by left|].
  unfold selectAvailableTickets in H.
  rewrite (plain_sql_literal _ Pfn) in H. simpl in H.
  destruct (flights db !! fn) as [f|] eqn:Ef;
    [|rewrite Z.eqb_refl in H; simplify_eq; by left].
  destruct (Z.eqb_spec (sqlite3_column_int (Flights.availableTickets f)) (-1));
    [simplify_eq; by left|].
  destruct (Z.leb_spec (sqlite3_column_int (Flights.availableTickets f)) 0);
    [simplify_eq; by left|].
  destruct (isSeatAvailable fn seat db) eqn:Hs; simpl in H;
    [|simplify_eq; by left].
  assert (addUser uid nm fn seat db
          = Some (Db (<[fn := Flights.setAvailable (λ a, a - 1) f]> (flights db))
                     (<[uid := Users.Row nm fn seat]> (users db)), UserAdded)) as Ha
    by (by apply addUser_plain).
  unfold addUser in Ha. rewrite Hu, Hs in Ha.
  assert (flightExists fn db = true) as Hf.
  { apply flightExists_true. rewrite (plain_c_str _ Pfn). by eexists. }
  rewrite Hf in Ha. simpl in Ha.
  destruct (executeSQL _ db) as [[[] db1]|]; simpl in *; [|done..].
  destruct (executeSQL _ db1) as [[ok db2]|]; simpl in *; [|done].
  simplify_eq. right. exists f. repeat split; try done.
  - apply userExists_false in Hu. by rewrite (plain_c_str _ Puid) in Hu.
  - unfold isSeatAvailable in Hs. rewrite (plain_c_str _ Pfn) in Hs.
    by apply negb_true_iff in Hs.
Qed.

Lemma modifyUser_plain_inv uid nm fn seat db db' r :
  plain uid = true → plain nm = true → plain fn = true →
  modifyUser uid nm fn seat db = Some (db', r) →
  (db' = db ∧ succeeded r = false)
  ∨ (is_Some (users db !! uid) ∧ is_Some (flights db !! fn)
     ∧ seatHeld fn seat (Some uid) (users db) = false
     ∧ db' = Db (flights db) (<[uid := Users.Row nm fn seat]> (users db))
     ∧ r = UserModified).
Proof.
  intros Puid Pnm Pfn H.
  destruct (userExists uid db) eqn:Hu;
    [|unfold modifyUser in H; rewrite Hu in H; simpl in H; simplify_eq; by left].
  destruct (flightExists fn db) eqn:Hf;
    [|unfold modifyUser in H; rewrite Hu, Hf in H; simpl in H; simplify_eq; by left].
  destruct (seatHeld fn seat (Some uid) (users db)) eqn:Hs.
  - unfold modifyUser in H. rewrite Hu, Hf in H. simpl in H.
    rewrite (plain_c_str _ Puid), (plain_c_str _ Pfn), Hs in H. simpl in H.
    simplify_eq. by left.
  - rewrite modifyUser_plain in H by done. simplify_eq. right.
    apply userExists_true in Hu. rewrite (plain_c_str _ Puid) in Hu.
    apply flightExists_true in Hf. by rewrite (plain_c_str _ Pfn) in Hf.
Qed.

(** deleteUser on a plain userID: the row goes, and at most one counter
    is raised. *)
Lemma deleteUser_plain_inv uid db db' r :
  plain uid = true → deleteUser uid db = Some (db', r) →
  (db' = db ∧ r = UserNotFound)
  ∨ (∃ u, users db !! uid = Some u ∧ r = UserDeleted
          ∧ users db' = delete uid (users db)
          ∧ ((c_str (Users.flightNumber u) = EmptyString
              ∧ flights db' = flights db)
             ∨ (c_str (Users.flightNumber u) ≠ EmptyString
                ∧ ∃ fn, sql_literal (c_str (Users.flightNumber u)) = Some fn
                        ∧ flights db'
                          = alter (Flights.setAvailable (λ a, a + 1)) fn
                                  (flights db)))).
Proof.
  intros Puid H. unfold deleteUser in H.
  destruct (userExists uid db) eqn:Hu; simpl in H; [|simplify_eq; by left].
  apply userExists_true in Hu as [u Hu]. rewrite (plain_c_str _ Puid) in Hu.
  unfold selectFlightNumber, deleteUserSql, executeSQL in H.
  rewrite (plain_sql_literal _ Puid) in H. simpl in H. rewrite Hu in H.
  right. exists u.
  destruct (String.eqb_spec (c_str (Users.flightNumber u)) EmptyString) as [E|E];
    simpl in H.
  - simplify_eq. repeat split; try done. by left.
  - unfold updateAvailableSql in H.
    destruct (sql_literal (c_str (Users.flightNumber u))) as [fn|] eqn:El;
      simpl in H; [|done].
    simplify_eq. repeat split; try done. right. split; [done|]. by exists fn.
Qed.

Lemma cancelReservation_as_deleteUser uid db :
  cancelReservation uid db = prod_map id cancelLine <$> deleteUser uid db.
Proof.
  unfold cancelReservation, deleteUser.
  destruct (userExists uid db); simpl; [|done].
  destruct (selectFlightNumber uid db) as [fn|]; simpl; [|done].
  destruct (executeSQL (deleteUserSql uid) db) as [[[] db1]|]; simpl; [|done..].
  destruct (String.eqb fn EmptyString); simpl; [done|].
  by destruct (executeSQL (updateAvailableSql 1 fn) db1) as [[ok db2]|].
Qed.

Lemma cancelReservation_db uid db db' r :
  cancelReservation uid db = Some (db', r) →
  ∃ r', deleteUser uid db = Some (db', r') ∧ r = cancelLine r'.
Proof.
  rewrite cancelReservation_as_deleteUser.
  destruct (deleteUser uid db) as [[d r']|]; simpl; [|done].
  intros [= <- <-]. by exists r'.
Qed.

Lemma setAvailable_up_down f :
  Flights.setAvailable (λ a, a + 1) (Flights.setAvailable (λ a, a - 1) f) = f.
Proof. destruct f. unfold Flights.setAvailable. simpl. f_equal. lia. Qed.

Lemma setAvailable_down_up f :
  Flights.setAvailable (λ a, a - 1) (Flights.setAvailable (λ a, a + 1) f) = f.
Proof. destruct f. unfold Flights.setAvailable. simpl. f_equal. lia. Qed.

(** X7. No double booking: once addUser has booked a seat on a flight
    (plain text), isSeatAvailable refuses that seat, the list of taken
    seats shows it, and a later addUser or makeReservation by another
    userID for the same flight and seat stops at a check and writes
    nothing. *)
Theorem double_booking_refused userID name flightNumber seatNumber db db' :
  plain userID = true → plain name = true → plain flightNumber = true →
  addUser userID name flightNumber seatNumber db = Some (db', UserAdded) →
  isSeatAvailable flightNumber seatNumber db' = false
  ∧ seatNumber ∈ getTakenSeats flightNumber db'
  ∧ ∀ userID2 name2,
      userExists userID2 db' = false →
      addUser userID2 name2 flightNumber seatNumber db' = Some (db', SeatTaken)
      ∧ ∃ r, makeReservation userID2 flightNumber name2 seatNumber db'
             = Some (db', r)
             ∧ validationFailure r = true.
Proof.
  intros Puid Pnm Pfn H.
  destruct (addUser_plain_inv _ _ _ _ _ _ _ Puid Pnm Pfn H)
    as [[_ Hr]|(f & Hf & Hu & Hs & -> & _)]; [discriminate Hr|].
  assert (isSeatAvailable flightNumber seatNumber
            (Db (<[flightNumber:=Flights.setAvailable (λ a, a - 1) f]> (flights db))
                (<[userID:=Users.Row name flightNumber seatNumber]> (users db)))
          = false) as Htaken.
  { unfold isSeatAvailable. rewrite (plain_c_str _ Pfn). simpl.
    apply negb_false_iff, seatHeld_true.
    exists userID, (Users.Row name flightNumber seatNumber).
    by rewrite lookup_insert_eq. }
  split; [done|]. split; [by apply elem_of_getTakenSeats|].
  intros uid2 nm2 Hu2. split.
  - unfold addUser. rewrite Hu2, Htaken.
    assert (flightExists flightNumber
              (Db (<[flightNumber:=Flights.setAvailable (λ a, a - 1) f]> (flights db))
                  (<[userID:=Users.Row name flightNumber seatNumber]> (users db)))
            = true) as ->; [|done].
    apply flightExists_true. rewrite (plain_c_str _ Pfn). simpl.
    rewrite lookup_insert_eq. by eexists.
  - unfold makeReservation, selectAvailableTickets.
    rewrite Hu2, (plain_sql_literal _ Pfn), Htaken. simpl.
    rewrite lookup_insert_eq.
    destruct (_ =? -1); [by eexists|].
    destruct (_ <=? 0); by eexists.
Qed.

Lemma double_booking_refused_witness :
  ∃ db', addUser "U2" "Sara" "AA100" 2 dbAA100 = Some (db', UserAdded)
         ∧ isSeatAvailable "AA100" 2 db' = false
         ∧ addUser "U3" "Omar" "AA100" 2 db' = Some (db', SeatTaken).
Proof.
  eexists. split; [vm_compute; reflexivity|].
  destruct (double_booking_refused "U2" "Sara" "AA100" 2 dbAA100 _
              eq_refl eq_refl eq_refl eq_refl) as (Ht & _ & Hnext).
  split; [exact Ht|]. exact (proj1 (Hnext "U3" "Omar" eq_refl)).
Defined.

(** X8. Booking and deleting cancel out: on plain text and a flight
    number that is not empty, addUser followed by deleteUser of the same
    userID gives back the database it started from, both tables and the
    counter. *)
Theorem addUser_then_deleteUser userID name flightNumber seatNumber db db1 :
  plain userID = true → plain name = true → plain flightNumber = true →
  flightNumber ≠ EmptyString →
  addUser userID name flightNumber seatNumber db = Some (db1, UserAdded) →
  deleteUser userID db1 = Some (db, UserDeleted).
Proof.
  intros Puid Pnm Pfn Hne H.
  destruct (addUser_plain_inv _ _ _ _ _ _ _ Puid Pnm Pfn H)
    as [[_ Hr]|(f & Hf & Hu & Hs & -> & _)]; [discriminate Hr|].
  rewrite (deleteUser_plain _ _ (Users.Row name flightNumber seatNumber));
    simpl; try done; [|by rewrite lookup_insert_eq].
  rewrite alter_insert_eq, setAvailable_up_down, (insert_id _ _ _ Hf).
  rewrite (delete_insert_id _ _ _ Hu). by destruct db.
Qed.

Lemma addUser_then_deleteUser_witness :
  ∃ db1, addUser "U2" "Sara" "AA100" 2 dbAA100 = Some (db1, UserAdded)
         ∧ deleteUser "U2" db1 = Some (dbAA100, UserDeleted).
Proof.
  eexists. split; [vm_compute; reflexivity|].
  apply (addUser_then_deleteUser "U2" "Sara" "AA100" 2 dbAA100);
    [reflexivity | reflexivity | reflexivity | discriminate | reflexivity].
Defined.

(** X9. The seat is free again after deleteUser: with unique seats and
    plain text, deleting a passenger of an existing flight whose number is
    not empty makes isSeatAvailable accept the seat, and addUser with the
    deleted row gives back the database from before the deletion. *)
Theorem deleteUser_then_addUser userID db u f :
  seatUnique (users db) → users db !! userID = Some u →
  flights db !! Users.flightNumber u = Some f →
  plain userID = true → plain (Users.name u) = true →
  plain (Users.flightNumber u) = true → Users.flightNumber u ≠ EmptyString →
  ∃ db1,
    deleteUser userID db = Some (db1, UserDeleted)
    ∧ isSeatAvailable (Users.flightNumber u) (Users.seatNumber u) db1 = true
    ∧ addUser userID (Users.name u) (Users.flightNumber u) (Users.seatNumber u) db1
      = Some (db, UserAdded).
Proof.
  intros Huniq Hu Hf Puid Pnm Pfn Hne. eexists.
  split; [by apply (deleteUser_plain _ _ u)|].
  assert (isSeatAvailable (Users.flightNumber u) (Users.seatNumber u)
            (Db (alter (Flights.setAvailable (λ a, a + 1)) (Users.flightNumber u)
                       (flights db))
                (delete userID (users db))) = true) as Hfree.
  { unfold isSeatAvailable. rewrite (plain_c_str _ Pfn). simpl.
    apply negb_true_iff, seatHeld_false.
    intros k r [Hk Hr]%lookup_delete_Some Hfr Hsr. exfalso. apply Hk.
    symmetry. by apply (Huniq k userID r u). }
  split; [done|].
  rewrite (addUser_plain _ _ _ _ _ (Flights.setAvailable (λ a, a + 1) f));
    simpl; try done.
  - rewrite setAvailable_down_up, insert_alter_eq, (insert_id _ _ _ Hf).
    rewrite insert_delete_eq.
    replace (Users.Row (Users.name u) (Users.flightNumber u) (Users.seatNumber u))
      with u by (by destruct u).
    rewrite (insert_id _ _ _ Hu). by destruct db.
  - apply userExists_false. simpl.
    by rewrite (plain_c_str _ Puid), lookup_delete_eq.
  - by rewrite lookup_alter_eq, Hf.
Qed.

Lemma deleteUser_then_addUser_witness :
  ∃ db1,
    deleteUser "U1" dbAA100 = Some (db1, UserDeleted)
    ∧ isSeatAvailable "AA100" 1 db1 = true
    ∧ addUser "U1" "Ali" "AA100" 1 db1 = Some (dbAA100, UserAdded).
Proof.
  apply (deleteUser_then_addUser "U1" dbAA100 (Users.Row "Ali" "AA100" 1)
           (Flights.Row "Delta" "Lahore" "Karachi" 2 1));
    try reflexivity; [apply seatUnique_singleton | discriminate].
Defined.

(** X10. Opening and closing a flight cancel out: on plain text, when no
    booking names the new flight number, addFlight followed by
    deleteFlight gives back the database it started from. *)
Theorem addFlight_then_deleteFlight flightNumber airlineName startingPoint
    destination totalTickets db db1 :
  plain flightNumber = true → plain airlineName = true →
  plain startingPoint = true → plain destination = true →
  (∀ uid u, users db !! uid = Some u → Users.flightNumber u ≠ flightNumber) →
  addFlight flightNumber airlineName startingPoint destination totalTickets db
  = Some (db1, FlightAdded) →
  deleteFlight flightNumber db1 = Some (db, FlightDeleted).
Proof.
  intros Pfn Pan Psp Pde Hnone H.
  destruct (addFlight_plain_inv _ _ _ _ _ _ _ _ Pfn Pan Psp Pde H)
    as [[_ Hr]|(Hf & -> & _)]; [discriminate Hr|].
  rewrite deleteFlight_plain; [|apply flightExists_true|done].
  - simpl. rewrite (delete_insert_id _ _ _ Hf).
    rewrite map_filter_id; [by destruct db|].
    intros uid u Hu. simpl. by eapply Hnone.
  - simpl. rewrite (plain_c_str _ Pfn), lookup_insert_eq. by eexists.
Qed.

Lemma addFlight_then_deleteFlight_witness :
  ∃ db1,
    addFlight "BB200" "Emirates" "Dubai" "London" 3 dbAA100 = Some (db1, FlightAdded)
    ∧ deleteFlight "BB200" db1 = Some (dbAA100, FlightDeleted).
Proof.
  eexists. split; [vm_compute; reflexivity|].
  apply (addFlight_then_deleteFlight "BB200" "Emirates" "Dubai" "London" 3 dbAA100);
    try reflexivity.
  intros uid u Hu. unfold dbAA100 in Hu. simpl in Hu.
  apply lookup_singleton_Some in Hu as [_ <-]. discriminate.
Defined.

(** ** Frames: what an operation leaves alone *)

(** X11. An operation that does not print its success line has written
    nothing, whether it stopped at a check or the engine refused its
    first statement: a refused INSERT is never followed by the update of
    the counter. *)
Theorem unsuccessful_writes_nothing op db db' r :
  run op db = Some (db', r) → succeeded r = false → db' = db.
Proof.
  intros H Hr.
  destruct op; simpl in H;
    unfold addFlight, modifyFlight, deleteFlight, addUser, modifyUser,
      deleteUser, makeReservation, cancelReservation in H;
    run_cases H; simpl in Hr; try done;
    repeat match goal with
    | E : executeSQL _ _ = Some (false, _) |- _ =>
        apply executeSQL_inv in E as (? & ? & [[? _]|(_ & ? & ->)]); [done|]
    | E : executeSQL _ _ = Some (true, _) |- _ =>
        apply executeSQL_inv in E as (? & ? & [[_ ?]|(? & _ & _)]); [|done]
    end; try done.
  (* deleteFlight: the second DELETE cannot be refused *)
  match goal with
  | Hs : deleteFlightSql _ = Some ?s, He : exec ?s _ = None |- _ =>
      unfold deleteFlightSql in Hs;
      destruct (sql_literal flightNumber); simpl in Hs; simplify_eq;
      simpl in He; done
  end.
Qed.

Lemma unsuccessful_writes_nothing_witness :
  run (AddUser "U''1" "Sara" "F1" 2) dbDoubled = Some (dbDoubled, SqlError)
  ∧ dbDoubled = dbDoubled.
Proof.
  assert (H : run (AddUser "U''1" "Sara" "F1" 2) dbDoubled
              = Some (dbDoubled, SqlError)) by (vm_compute; reflexivity).
  split; [exact H|]. exact (unsuccessful_writes_nothing _ _ _ _ H eq_refl).
Defined.

Lemma executeSQL_insertUser_flights u db ok db' :
  executeSQL (insertUserSql u) db = Some (ok, db') → flights db' = flights db.
Proof.
  intros (s & Hs & [[_ He]|(_ & _ & ->)])%executeSQL_inv; [|done].
  unfold insertUserSql in Hs.
  destruct (sql_literal (User.userID u)); simpl in Hs; [|done].
  destruct (sql_literal (User.name u)); simpl in Hs; [|done].
  destruct (sql_literal (User.flightNumber u)); simpl in Hs; [|done].
  simplify_eq. simpl in He. repeat case_match; by simplify_eq.
Qed.

Lemma executeSQL_updateUser_flights u uid db ok db' :
  executeSQL (updateUserSql u uid) db = Some (ok, db') → flights db' = flights db.
Proof.
  intros (s & Hs & [[_ He]|(_ & _ & ->)])%executeSQL_inv; [|done].
  unfold updateUserSql in Hs.
  destruct (sql_literal (User.name u)); simpl in Hs; [|done].
  destruct (sql_literal (User.flightNumber u)); simpl in Hs; [|done].
  destruct (sql_literal uid); simpl in Hs; [|done].
  simplify_eq. simpl in He. repeat case_match; by simplify_eq.
Qed.

Lemma executeSQL_deleteUser_flights uid db ok db' :
  executeSQL (deleteUserSql uid) db = Some (ok, db') → flights db' = flights db.
Proof.
  intros (s & Hs & [[_ He]|(_ & _ & ->)])%executeSQL_inv; [|done].
  unfold deleteUserSql in Hs.
  destruct (sql_literal uid); simpl in Hs; [|done].
  simplify_eq. simpl in He. by simplify_eq.
Qed.

Lemma executeSQL_updateAvailable delta fn db ok db' :
  executeSQL (updateAvailableSql delta fn) db = Some (ok, db') →
  ∃ k, flights db' = alter (Flights.setAvailable (λ a, a + delta)) k (flights db)
       ∧ users db' = users db.
Proof.
  intros (s & Hs & Hcase)%executeSQL_inv.
  unfold updateAvailableSql in Hs.
  destruct (sql_literal fn) as [k|]; simpl in Hs; [|done].
  simplify_eq. simpl in Hcase.
  destruct Hcase as [[_ He]|(_ & He & _)]; [|done].
  simplify_eq. by exists k.
Qed.

Lemma counterMovedByOne_refl f : counterMovedByOne f f.
Proof. unfold counterMovedByOne. repeat split; try done. lia. Qed.

Lemma counterMovedByOne_alter delta k (m : gmap string Flights.row) fn :
  Z.abs delta ≤ 1 →
  option_Forall2 counterMovedByOne
    (m !! fn) (alter (Flights.setAvailable (λ a, a + delta)) k m !! fn).
Proof.
  intros Hd. rewrite lookup_alter. case_decide as Hk.
  - subst. destruct (m !! fn) as [f|]; constructor.
    unfold counterMovedByOne. simpl. repeat split; try done. lia.
  - destruct (m !! fn); constructor. apply counterMovedByOne_refl.
Qed.

Lemma counterMovedByOne_same (m m' : gmap string Flights.row) fn :
  m' = m → option_Forall2 counterMovedByOne (m !! fn) (m' !! fn).
Proof.
  intros ->. destruct (m !! fn); constructor. apply counterMovedByOne_refl.
Qed.

(** X12. The operations on passengers (addUser, modifyUser, deleteUser,
    makeReservation, cancelReservation) never create or delete a flight
    and never touch airline, route or totalTickets; of a flight they move
    at most availableTickets, and that by at most one. *)
Theorem user_operations_frame op db db' r :
  userOp op = true → run op db = Some (db', r) →
  ∀ fn, option_Forall2 counterMovedByOne (flights db !! fn) (flights db' !! fn).
Proof.
  intros Hop H fn.
  destruct op; try discriminate Hop; simpl in H;
    unfold addUser, modifyUser, deleteUser, makeReservation, cancelReservation in H;
    run_cases H;
    repeat match goal with
    | E : executeSQL (insertUserSql _) _ = Some _ |- _ =>
        apply executeSQL_insertUser_flights in E
    | E : executeSQL (updateUserSql _ _) _ = Some _ |- _ =>
        apply executeSQL_updateUser_flights in E
    | E : executeSQL (deleteUserSql _) _ = Some _ |- _ =>
        apply executeSQL_deleteUser_flights in E
    | E : executeSQL (updateAvailableSql _ _) _ = Some _ |- _ =>
        apply executeSQL_updateAvailable in E as (? & E & _)
    end;
    try (by apply counterMovedByOne_same);
    match goal with
    | E : flights _ = alter _ _ _, E' : flights _ = flights db |- _ =>
        rewrite E, E'; by apply counterMovedByOne_alter
    end.
Qed.

Lemma user_operations_frame_witness :
  ∃ db', run (AddUser "U2" "Sara" "AA100" 2) dbAA100 = Some (db', UserAdded)
         ∧ option_Forall2 counterMovedByOne
             (flights dbAA100 !! "AA100") (flights db' !! "AA100").
Proof.
  eexists. split; [vm_compute; reflexivity|].
  refine (user_operations_frame (AddUser "U2" "Sara" "AA100" 2) dbAA100 _ UserAdded
            eq_refl _ "AA100").
  vm_compute. reflexivity.
Defined.

Lemma executeSQL_insertFlight_users f db ok db' :
  executeSQL (insertFlightSql f) db = Some (ok, db') → users db' = users db.
Proof.
  intros (s & Hs & [[_ He]|(_ & _ & ->)])%executeSQL_inv; [|done].
  unfold insertFlightSql in Hs.
  destruct (sql_literal (Flight.flightNumber f)); simpl in Hs; [|done].
  destruct (sql_literal (Flight.airlineName f)); simpl in Hs; [|done].
  destruct (sql_literal (Flight.startingPoint f)); simpl in Hs; [|done].
  destruct (sql_literal (Flight.destination f)); simpl in Hs; [|done].
  simplify_eq. simpl in He. repeat case_match; by simplify_eq.
Qed.

Lemma executeSQL_updateFlight_users f fn db ok db' :
  executeSQL (updateFlightSql f fn) db = Some (ok, db') → users db' = users db.
Proof.
  intros (s & Hs & [[_ He]|(_ & _ & ->)])%executeSQL_inv; [|done].
  unfold updateFlightSql in Hs.
  destruct (sql_literal (Flight.airlineName f)); simpl in Hs; [|done].
  destruct (sql_literal (Flight.startingPoint f)); simpl in Hs; [|done].
  destruct (sql_literal (Flight.destination f)); simpl in Hs; [|done].
  destruct (sql_literal fn); simpl in Hs; [|done].
  simplify_eq. simpl in He. by simplify_eq.
Qed.

Lemma executeSQL_deleteFlight_users fn db ok db' :
  executeSQL (deleteFlightSql fn) db = Some (ok, db') → users db' = users db.
Proof.
  intros (s & Hs & [[_ He]|(_ & _ & ->)])%executeSQL_inv; [|done].
  unfold deleteFlightSql in Hs.
  destruct (sql_literal fn); simpl in Hs; [|done].
  simplify_eq. simpl in He. by simplify_eq.
Qed.

Lemma executeSQL_deleteUsers_users fn db ok db' :
  executeSQL (deleteUsersSql fn) db = Some (ok, db') → users db' ⊆ users db.
Proof.
  intros (s & Hs & [[_ He]|(_ & _ & ->)])%executeSQL_inv; [|done].
  unfold deleteUsersSql in Hs.
  destruct (sql_literal fn); simpl in Hs; [|done].
  simplify_eq. simpl in He. simplify_eq. simpl. apply map_filter_subseteq.
Qed.

(** X13. The operations on flights never add or alter a passenger:
    addFlight and modifyFlight leave table [Users] as it was, and after
    deleteFlight every row of [Users] is a row that was there before. *)
Theorem flight_operations_frame op db db' r :
  userOp op = false → run op db = Some (db', r) →
  users db' ⊆ users db
  ∧ ((∀ fn, op ≠ DeleteFlight fn) → users db' = users db).
Proof.
  intros Hop H.
  destruct op; try discriminate Hop; simpl in H.
  - unfold addFlight in H. run_cases H; [done|..];
      apply executeSQL_insertFlight_users in Esql; by rewrite Esql.
  - unfold modifyFlight in H. run_cases H; [done|..];
      apply executeSQL_updateFlight_users in Esql; by rewrite Esql.
  - split; [|intros Hn; by destruct (Hn flightNumber)].
    unfold deleteFlight in H. run_cases H; try done;
      repeat match goal with
      | E : executeSQL (deleteUsersSql _) _ = Some _ |- _ =>
          apply executeSQL_deleteUsers_users in E
      | E : executeSQL (deleteFlightSql _) _ = Some _ |- _ =>
          apply executeSQL_deleteFlight_users in E
      end;
      first [ congruence
            | match goal with
              | E : users _ = users _ |- _ => by rewrite E
              end
            | done ].
Qed.

Lemma flight_operations_frame_witness :
  ∃ db', run (DeleteFlight "BB200") dbTwoFlights = Some (db', FlightDeleted)
         ∧ users db' ⊆ users dbTwoFlights.
Proof.
  eexists. split; [vm_compute; reflexivity|].
  refine (proj1 (flight_operations_frame (DeleteFlight "BB200") dbTwoFlights _
                   FlightDeleted eq_refl _)).
  vm_compute. reflexivity.
Defined.

(** ** Invariants of scripts typed in plain text *)

Lemma runAll_keeps (allowed : operation → bool) (P : Database → Prop) :
  (∀ op db db' r, allowed op = true → P db → run op db = Some (db', r) → P db') →
  ∀ ops db db',
    forallb allowed ops = true → P db → runAll ops db = Some db' → P db'.
Proof.
  intros Hstep. induction ops as [|op ops IH]; intros db db' Hall HP H; simpl in *.
  - by simplify_eq.
  - apply andb_true_iff in Hall as [Hop Hall].
    destruct (run op db) as [[d r]|] eqn:E; simpl in H; [|done].
    eapply IH; [done| |done]. by eapply Hstep.
Qed.

Lemma plainNonEmpty_spec s :
  plainNonEmpty s = true ↔ plain s = true ∧ s ≠ EmptyString.
Proof.
  unfold plainNonEmpty. rewrite andb_true_iff, negb_true_iff.
  by rewrite String.eqb_neq.
Qed.

Lemma refIntegrity_step op db db' r :
  plainOp op = true → refIntegrity db → run op db = Some (db', r) →
  refIntegrity db'.
Proof.
  intros Hop Hri H. destruct op; simpl in Hop, H;
    rewrite ?andb_true_iff in Hop.
  - destruct Hop as [[[Pfn Pan] Psp] Pde].
    destruct (addFlight_plain_inv _ _ _ _ _ _ _ _ Pfn Pan Psp Pde H)
      as [[-> _]|(_ & -> & _)]; [done|].
    intros uid u Hu. simpl in *. apply lookup_insert_is_Some'. right. by eapply Hri.
  - destruct Hop as [[[Pfn Pan] Psp] Pde].
    destruct (modifyFlight_plain_inv _ _ _ _ _ _ _ _ _ Pfn Pan Psp Pde H)
      as [[-> _]|(_ & -> & _)]; [done|].
    intros uid u Hu. simpl in *. apply lookup_insert_is_Some'. right. by eapply Hri.
  - destruct (deleteFlight_plain_inv _ _ _ _ Hop H) as [[-> _]|(_ & -> & _)]; [done|].
    intros uid u [Hu Hne]%map_lookup_filter_Some. simpl in *.
    rewrite lookup_delete_ne by done. by eapply Hri.
  - destruct Hop as [[Puid Pnm] Pfn].
    destruct (addUser_plain_inv _ _ _ _ _ _ _ Puid Pnm Pfn H)
      as [[-> _]|(f & Hf & _ & _ & -> & _)]; [done|].
    intros uid u Hu. simpl in *. apply lookup_insert_is_Some'.
    apply lookup_insert_Some in Hu as [[_ <-]|[_ Hu]]; [by left|].
    right. by eapply Hri.
  - destruct Hop as [[Puid Pnm] Pfn].
    destruct (modifyUser_plain_inv _ _ _ _ _ _ _ Puid Pnm Pfn H)
      as [[-> _]|(_ & Hf & _ & -> & _)]; [done|].
    intros uid u Hu. simpl in *.
    apply lookup_insert_Some in Hu as [[_ <-]|[_ Hu]]; [done|]. by eapply Hri.
  - destruct (deleteUser_plain_inv _ _ _ _ Hop H)
      as [[-> _]|(u0 & _ & _ & Hus & Hfl)]; [done|].
    intros uid u Hu. rewrite Hus in Hu. apply lookup_delete_Some in Hu as [_ Hu].
    destruct Hfl as [[_ ->]|(_ & k & _ & ->)]; [by eapply Hri|].
    apply lookup_alter_is_Some. by eapply Hri.
  - destruct Hop as [[Puid Pfn] Pnm].
    destruct (makeReservation_plain_inv _ _ _ _ _ _ _ Puid Pfn Pnm H)
      as [[-> _]|(f & Hf & _ & _ & _ & -> & _)]; [done|].
    intros uid u Hu. simpl in *. apply lookup_insert_is_Some'.
    apply lookup_insert_Some in Hu as [[_ <-]|[_ Hu]]; [by left|].
    right. by eapply Hri.
  - apply cancelReservation_db in H as (r' & H & _).
    destruct (deleteUser_plain_inv _ _ _ _ Hop H)
      as [[-> _]|(u0 & _ & _ & Hus & Hfl)]; [done|].
    intros uid u Hu. rewrite Hus in Hu. apply lookup_delete_Some in Hu as [_ Hu].
    destruct Hfl as [[_ ->]|(_ & k & _ & ->)]; [by eapply Hri|].
    apply lookup_alter_is_Some. by eapply Hri.
Qed.

Lemma refIntegrity_init : refIntegrity initializeDatabase.
Proof. intros uid u Hu. simpl in Hu. by rewrite lookup_empty in Hu. Qed.

(** X14. Referential integrity on plain text: every operation typed in
    plain text keeps the property that each booking names a flight on
    file, so every script of such operations run on the fresh database
    ends in a state with no booking on a missing flight. *)
Theorem referential_integrity_kept :
  (∀ op db db' r,
      plainOp op = true → refIntegrity db → run op db = Some (db', r) →
      refIntegrity db')
  ∧ (∀ ops db,
       forallb plainOp ops = true → runAll ops initializeDatabase = Some db →
       refIntegrity db).
Proof.
  split; [apply refIntegrity_step|].
  intros ops db Hall H.
  eapply (runAll_keeps plainOp refIntegrity);
    eauto using refIntegrity_step, refIntegrity_init.
Qed.

Lemma referential_integrity_kept_witness : refIntegrity dbAA100.
Proof.
  apply (proj2 referential_integrity_kept scenarioAA100 dbAA100);
    vm_compute; reflexivity.
Defined.

Lemma bookings_insert_fresh fn uid u (us : gmap string Users.row) :
  us !! uid = None →
  bookings fn (<[uid := u]> us)
  = if decide (Users.flightNumber u = fn) then S (bookings fn us) else bookings fn us.
Proof.
  intros Hu. unfold bookings. rewrite map_filter_insert. simpl.
  case_decide.
  - rewrite map_size_insert_None; [done|].
    apply map_lookup_filter_None. by left.
  - by rewrite delete_id.
Qed.

Lemma bookings_insert fn uid u (us : gmap string Users.row) :
  bookings fn (<[uid := u]> us)
  = if decide (Users.flightNumber u = fn)
    then S (bookings fn (delete uid us)) else bookings fn (delete uid us).
Proof.
  rewrite <- insert_delete_eq. apply bookings_insert_fresh, lookup_delete_eq.
Qed.

Lemma bookings_delete fn uid u (us : gmap string Users.row) :
  us !! uid = Some u →
  bookings fn us
  = if decide (Users.flightNumber u = fn)
    then S (bookings fn (delete uid us)) else bookings fn (delete uid us).
Proof.
  intros Hu. rewrite <- (insert_id us uid u Hu) at 1. apply bookings_insert.
Qed.

Lemma bookings_filter_other fn fn' (us : gmap string Users.row) :
  fn' ≠ fn →
  bookings fn' (filter (λ kr : string * Users.row, Users.flightNumber kr.2 ≠ fn) us)
  = bookings fn' us.
Proof.
  intros Hne. unfold bookings. f_equal.
  apply (map_filter_filter_l
           (λ kr : string * Users.row, Users.flightNumber kr.2 = fn')).
  intros i x _ Hx. simpl in *. congruence.
Qed.

Lemma bookings_none fn (us : gmap string Users.row) :
  (∀ uid u, us !! uid = Some u → Users.flightNumber u ≠ fn) → bookings fn us = 0%nat.
Proof.
  intros Hnone. unfold bookings. apply map_size_empty_iff, map_empty.
  intros uid. apply map_lookup_filter_None. right. intros u Hu. simpl.
  by apply (Hnone uid u).
Qed.

(** What deleteUser does in a database kept in order. *)
Lemma deleteUser_wellKept_inv uid db db' r :
  plain uid = true → refIntegrity db → flightNumbersTidy db →
  deleteUser uid db = Some (db', r) →
  db' = db
  ∨ ∃ u f, users db !! uid = Some u
           ∧ flights db !! Users.flightNumber u = Some f
           ∧ db' = Db (<[Users.flightNumber u :=
                           Flights.setAvailable (λ a, a + 1) f]> (flights db))
                      (delete uid (users db)).
Proof.
  intros Puid Hri Htidy H.
  destruct (users db !! uid) as [u|] eqn:Hu.
  - destruct (Hri uid u Hu) as [f Hf].
    destruct (proj1 (plainNonEmpty_spec _) (Htidy _ _ Hf)) as [Pfn Hne].
    rewrite (deleteUser_plain _ _ u) in H by done. simplify_eq.
    right. exists u, f. repeat split; try done.
    by rewrite (alter_as_insert _ _ _ f).
  - left. unfold deleteUser in H.
    assert (userExists uid db = false) as Hx.
    { apply userExists_false. by rewrite (plain_c_str _ Puid). }
    rewrite Hx in H. simpl in H. by simplify_eq.
Qed.

Lemma wellKept_book uid nm fn seat f db :
  wellKept db → flights db !! fn = Some f → users db !! uid = None →
  wellKept (Db (<[fn := Flights.setAvailable (λ a, a - 1) f]> (flights db))
               (<[uid := Users.Row nm fn seat]> (users db))).
Proof.
  intros (Hri & Htidy & Hcc) Hf Hu. split; [|split].
  - intros k u Hk. simpl in *. apply lookup_insert_is_Some'.
    apply lookup_insert_Some in Hk as [[_ <-]|[_ Hk]]; [by left|].
    right. by eapply Hri.
  - intros k g Hk. simpl in *.
    apply lookup_insert_Some in Hk as [[<- _]|[_ Hk]]; by eapply Htidy.
  - intros k g Hk. simpl in *. rewrite bookings_insert_fresh by done. simpl.
    apply lookup_insert_Some in Hk as [[<- <-]|[Hne Hk]].
    + rewrite decide_True by done. specialize (Hcc fn f Hf). simpl. lia.
    + rewrite decide_False by done. by apply Hcc.
Qed.

Lemma wellKept_unbook uid u f db :
  wellKept db → users db !! uid = Some u →
  flights db !! Users.flightNumber u = Some f →
  wellKept (Db (<[Users.flightNumber u :=
                    Flights.setAvailable (λ a, a + 1) f]> (flights db))
               (delete uid (users db))).
Proof.
  intros (Hri & Htidy & Hcc) Hu Hf. split; [|split].
  - intros k v Hk. simpl in *. apply lookup_delete_Some in Hk as [_ Hk].
    apply lookup_insert_is_Some'. right. by eapply Hri.
  - intros k g Hk. simpl in *.
    apply lookup_insert_Some in Hk as [[<- _]|[_ Hk]]; by eapply Htidy.
  - intros k g Hk. simpl in *.
    apply lookup_insert_Some in Hk as [[<- <-]|[Hne Hk]].
    + specialize (Hcc _ f Hf). rewrite (bookings_delete _ uid u) in Hcc by done.
      rewrite decide_True in Hcc by done. simpl. lia.
    + specialize (Hcc _ g Hk). rewrite (bookings_delete _ uid u) in Hcc by done.
      by rewrite decide_False in Hcc.
Qed.

Lemma wellKept_step op db db' r :
  bookingOp op = true → wellKept db → run op db = Some (db', r) → wellKept db'.
Proof.
  intros Hop Hwk H. pose proof Hwk as (Hri & Htidy & Hcc).
  destruct op; simpl in Hop, H; try discriminate Hop;
    rewrite ?andb_true_iff in Hop.
  - destruct Hop as [[[Pfn Pan] Psp] Pde].
    destruct (proj1 (plainNonEmpty_spec _) Pfn) as [Pfn' Hne].
    destruct (addFlight_plain_inv _ _ _ _ _ _ _ _ Pfn' Pan Psp Pde H)
      as [[-> _]|(Hnew & -> & _)]; [done|].
    split; [|split].
    + intros uid u Hu. simpl in *. apply lookup_insert_is_Some'. right.
      by eapply Hri.
    + intros k g Hk. simpl in *.
      apply lookup_insert_Some in Hk as [[<- _]|[_ Hk]]; [done|by eapply Htidy].
    + intros k g Hk. simpl in *.
      apply lookup_insert_Some in Hk as [[<- <-]|[_ Hk]]; [|by apply Hcc].
      rewrite bookings_none; [simpl; lia|].
      intros uid u Hu Hfu. destruct (Hri uid u Hu) as [g Hg]. congruence.
  - destruct (deleteFlight_plain_inv _ _ _ _ Hop H) as [[-> _]|(_ & -> & _)]; [done|].
    split; [|split].
    + intros uid u Hu. simpl in *.
      apply map_lookup_filter_Some in Hu as [Hu Hne]. simpl in Hne.
      rewrite lookup_delete_ne by done. by eapply Hri.
    + intros k g Hk. simpl in *. apply lookup_delete_Some in Hk as [_ Hk].
      by eapply Htidy.
    + intros k g Hk. simpl in *. apply lookup_delete_Some in Hk as [Hne Hk].
      rewrite bookings_filter_other by done. by apply Hcc.
  - destruct Hop as [[Puid Pnm] Pfn].
    destruct (addUser_plain_inv _ _ _ _ _ _ _ Puid Pnm Pfn H)
      as [[-> _]|(f & Hf & Hu & _ & -> & _)]; [done|].
    by apply wellKept_book.
  - destruct (deleteUser_wellKept_inv _ _ _ _ Hop Hri Htidy H)
      as [->|(u & f & Hu & Hf & ->)]; [done|].
    by apply wellKept_unbook.
  - destruct Hop as [[Puid Pfn] Pnm].
    destruct (makeReservation_plain_inv _ _ _ _ _ _ _ Puid Pfn Pnm H)
      as [[-> _]|(f & Hf & Hu & _ & _ & -> & _)]; [done|].
    by apply wellKept_book.
  - apply cancelReservation_db in H as (r' & H & _).
    destruct (deleteUser_wellKept_inv _ _ _ _ Hop Hri Htidy H)
      as [->|(u & f & Hu & Hf & ->)]; [done|].
    by apply wellKept_unbook.
Qed.

Lemma wellKept_init : wellKept initializeDatabase.
Proof.
  split; [apply refIntegrity_init|].
  split; intros fn f Hf; simpl in Hf; by rewrite lookup_empty in Hf.
Qed.

(** X15. The counters stay true under booking and cancelling: addFlight,
    deleteFlight, addUser, deleteUser, makeReservation and
    cancelReservation, typed in plain text with flight numbers that are
    not empty, keep availableTickets equal to totalTickets less the number
    of bookings on every flight (together with referential integrity); so
    every script of such operations run on the fresh database ends with
    counters that agree with the bookings. *)
Theorem counters_stay_consistent :
  (∀ op db db' r,
      bookingOp op = true → wellKept db → run op db = Some (db', r) →
      wellKept db')
  ∧ (∀ ops db,
       forallb bookingOp ops = true → runAll ops initializeDatabase = Some db →
       countersConsistent db).
Proof.
  split; [apply wellKept_step|].
  intros ops db Hall H.
  apply (runAll_keeps bookingOp wellKept wellKept_step ops _ _ Hall wellKept_init H).
Qed.

Lemma counters_stay_consistent_witness : countersConsistent dbAA100.
Proof.
  apply (proj2 counters_stay_consistent scenarioAA100 dbAA100);
    vm_compute; reflexivity.
Defined.

(** ** Where the counters drift *)

(** X16. modifyUser moves the booking and not the counters: when it
    moves a passenger to another flight (plain text), the new flight has
    one booking more and the old flight one less while table [Flights] is
    unchanged, so counters that agreed with the bookings before no longer
    do. *)
Theorem modifyUser_drift userID name flightNumber seatNumber db db' u :
  plain userID = true → plain name = true → plain flightNumber = true →
  users db !! userID = Some u → Users.flightNumber u ≠ flightNumber →
  modifyUser userID name flightNumber seatNumber db = Some (db', UserModified) →
  flights db' = flights db
  ∧ bookings flightNumber (users db') = S (bookings flightNumber (users db))
  ∧ bookings (Users.flightNumber u) (users db)
    = S (bookings (Users.flightNumber u) (users db'))
  ∧ (countersConsistent db → ¬ countersConsistent db').
Proof.
  intros Puid Pnm Pfn Hu Hne H.
  destruct (modifyUser_plain_inv _ _ _ _ _ _ _ Puid Pnm Pfn H)
    as [[_ Hr]|(_ & [f Hf] & _ & -> & _)]; [discriminate Hr|]. simpl.
  assert (bookings flightNumber
            (<[userID:=Users.Row name flightNumber seatNumber]> (users db))
          = S (bookings flightNumber (users db))) as Hnew.
  { rewrite bookings_insert, (bookings_delete flightNumber userID u (users db)) by done.
    simpl. by rewrite decide_True, decide_False by done. }
  split; [reflexivity|]. split; [exact Hnew|]. split.
  - rewrite bookings_insert,
      (bookings_delete (Users.flightNumber u) userID u (users db)) by done.
    simpl. by rewrite decide_True, decide_False by done.
  - intros Hcc Hcc'. specialize (Hcc _ _ Hf). specialize (Hcc' _ _ Hf).
    simpl in Hcc'. rewrite Hnew in Hcc'. lia.
Qed.

Lemma modifyUser_drift_witness :
  ∃ db', modifyUser "U1" "Ali" "BB200" 7 dbTwoFlights = Some (db', UserModified)
         ∧ flights db' = flights dbTwoFlights
         ∧ bookings "BB200" (users db') = S (bookings "BB200" (users dbTwoFlights)).
Proof.
  assert (modifyUser "U1" "Ali" "BB200" 7 dbTwoFlights
          = Some (Db (flights dbTwoFlights)
                     (<[ "U1" := Users.Row "Ali" "BB200" 7 ]> (users dbTwoFlights)),
                  UserModified)) as Hrun by (vm_compute; reflexivity).
  eexists. split; [exact Hrun|].
  destruct (modifyUser_drift "U1" "Ali" "BB200" 7 dbTwoFlights _
              (Users.Row "Ali" "AA100" 1) eq_refl eq_refl eq_refl eq_refl
              ltac:(discriminate) Hrun)
    as (Hf & Hb & _).
  by split.
Defined.

(** X17. The flight whose number is the empty line loses a ticket with
    every booking that is deleted: deleteUser reads the flight number into
    a string that starts empty and skips the increment when it is empty.
    So addUser on that flight followed by deleteUser gives back table
    [Users] and leaves the counter one lower than it was. *)
Theorem empty_number_leak userID name seatNumber db db1 f :
  plain userID = true → plain name = true →
  flights db !! EmptyString = Some f →
  addUser userID name EmptyString seatNumber db = Some (db1, UserAdded) →
  deleteUser userID db1
  = Some (Db (<[EmptyString := Flights.setAvailable (λ a, a - 1) f]> (flights db))
             (users db),
          UserDeleted).
Proof.
  intros Puid Pnm Hf H.
  destruct (addUser_plain_inv _ _ _ _ _ _ _ Puid Pnm
              (eq_refl : plain EmptyString = true) H)
    as [[_ Hr]|(f' & Hf' & Hu & _ & -> & _)]; [discriminate Hr|].
  rewrite Hf in Hf'. simplify_eq. unfold deleteUser.
  match goal with
  | |- context [userExists ?u ?d] =>
      assert (userExists u d = true) as ->
  end.
  { apply userExists_true. rewrite (plain_c_str _ Puid). simpl.
    rewrite lookup_insert_eq. by eexists. }
  simpl. unfold selectFlightNumber, deleteUserSql, executeSQL.
  rewrite (plain_sql_literal _ Puid). simpl. rewrite lookup_insert_eq. simpl.
  by rewrite (delete_insert_id _ _ _ Hu).
Qed.

Lemma empty_number_leak_witness :
  addUser "U1" "Ali" "" 1 dbEmptyOpen = Some (dbEmptyNumber, UserAdded)
  ∧ deleteUser "U1" dbEmptyNumber
    = Some (Db (<[ "" := Flights.setAvailable (λ a, a - 1)
                           (Flights.Row "Delta" "Lahore" "Karachi" 2 2) ]>
                  (flights dbEmptyOpen))
               (users dbEmptyOpen),
            UserDeleted).
Proof.
  assert (addUser "U1" "Ali" "" 1 dbEmptyOpen = Some (dbEmptyNumber, UserAdded))
    as Hrun by (vm_compute; reflexivity).
  split; [exact Hrun|].
  apply (empty_number_leak "U1" "Ali" 1 dbEmptyOpen dbEmptyNumber
           (Flights.Row "Delta" "Lahore" "Karachi" 2 2));
    [reflexivity | reflexivity | reflexivity | exact Hrun].
Defined.

Lemma sqlite3_column_int_id v :
  - 2 ^ 31 ≤ v < 2 ^ 31 → sqlite3_column_int v = v.
Proof.
  intros Hv. unfold sqlite3_column_int.
  destruct (Z.ltb_spec (v mod 2 ^ 32) (2 ^ 31)) as [Hlt|Hge].
  - destruct (Z.neg_nonneg_cases v) as [Hneg|Hpos].
    + rewrite <- (Z.mod_add v 1 (2 ^ 32)) in Hlt by lia.
      rewrite Z.mod_small in Hlt by lia. lia.
    + apply Z.mod_small. lia.
  - destruct (Z.neg_nonneg_cases v) as [Hneg|Hpos].
    + rewrite <- (Z.mod_add v 1 (2 ^ 32)) by lia.
      rewrite Z.mod_small by lia. lia.
    + rewrite Z.mod_small in Hge by lia. lia.
Qed.

(** sqlite3_column_int reads a counter as a 32-bit signed integer:
    the value read is in range, differs from the stored one by a multiple
    of 2^32, and is the stored value itself when that is in range. *)
Theorem sqlite3_column_int_spec v :
  - 2 ^ 31 ≤ sqlite3_column_int v < 2 ^ 31
  ∧ (sqlite3_column_int v - v) mod 2 ^ 32 = 0
  ∧ (- 2 ^ 31 ≤ v < 2 ^ 31 → sqlite3_column_int v = v).
Proof.
  split; [|split; [|apply sqlite3_column_int_id]].
  - unfold sqlite3_column_int.
    pose proof (Z.mod_pos_bound v (2 ^ 32) ltac:(lia)).
    destruct (Z.ltb_spec (v mod 2 ^ 32) (2 ^ 31)); lia.
  - unfold sqlite3_column_int.
    pose proof (Z.div_mod v (2 ^ 32) ltac:(lia)) as Hdm.
    destruct (Z.ltb_spec (v mod 2 ^ 32) (2 ^ 31)).
    + replace (v mod 2 ^ 32 - v) with ((- (v / 2 ^ 32)) * 2 ^ 32) by lia.
      apply Z.mod_mul. lia.
    + replace (v mod 2 ^ 32 - 2 ^ 32 - v) with ((- (v / 2 ^ 32) - 1) * 2 ^ 32) by lia.
      apply Z.mod_mul. lia.
Qed.

Lemma sqlite3_column_int_spec_witness : sqlite3_column_int (-1) = -1.
Proof.
  apply (proj2 (proj2 (sqlite3_column_int_spec (-1)))). lia.
Defined.

(** X18. makeReservation never oversells: when it succeeds on plain text
    the counter it read was above 0, and it lowers that counter by
    exactly one; with a counter stored in the 32-bit range the counter
    after the reservation is not negative. *)
Theorem makeReservation_never_oversells userID flightNumber name seatNumber db db' :
  plain userID = true → plain flightNumber = true → plain name = true →
  makeReservation userID flightNumber name seatNumber db
  = Some (db', ReservationSuccessful) →
  ∃ f f', flights db !! flightNumber = Some f
          ∧ flights db' !! flightNumber = Some f'
          ∧ 0 < sqlite3_column_int (Flights.availableTickets f)
          ∧ Flights.availableTickets f' = Flights.availableTickets f - 1
          ∧ (- 2 ^ 31 ≤ Flights.availableTickets f < 2 ^ 31 →
             0 ≤ Flights.availableTickets f').
Proof.
  intros Puid Pfn Pnm H.
  destruct (makeReservation_plain_inv _ _ _ _ _ _ _ Puid Pfn Pnm H)
    as [[_ Hr]|(f & Hf & _ & _ & Hpos & -> & _)]; [discriminate Hr|].
  exists f, (Flights.setAvailable (λ a, a - 1) f). simpl.
  rewrite lookup_insert_eq. repeat split; try done.
  intros Hrange. rewrite sqlite3_column_int_id in Hpos by done. lia.
Qed.

Lemma makeReservation_never_oversells_witness :
  ∃ db' f f',
    makeReservation "U2" "AA100" "Sara" 2 dbAA100 = Some (db', ReservationSuccessful)
    ∧ flights dbAA100 !! "AA100" = Some f
    ∧ flights db' !! "AA100" = Some f'
    ∧ Flights.availableTickets f' = Flights.availableTickets f - 1.
Proof.
  assert (makeReservation "U2" "AA100" "Sara" 2 dbAA100
          = Some (Db {[ "AA100" := Flights.Row "Delta" "Lahore" "Karachi" 2 0 ]}
                     (<[ "U2" := Users.Row "Sara" "AA100" 2 ]> (users dbAA100)),
                  ReservationSuccessful)) as Hrun by (vm_compute; reflexivity).
  destruct (makeReservation_never_oversells "U2" "AA100" "Sara" 2 dbAA100 _
              eq_refl eq_refl eq_refl Hrun)
    as (f & f' & Hf & Hf' & _ & Hd & _).
  eexists _, f, f'. split; [exact Hrun|]. by repeat split.
Defined.

(** X19. One booking for each userID: after addUser or makeReservation
    has booked a passenger (plain text), userExists finds the userID, and
    any further addUser or makeReservation under that userID, whatever the
    flight and seat, is refused and writes nothing; after deleteUser the
    userID is unknown again. *)
Theorem one_booking_per_userID userID name flightNumber seatNumber db db' r :
  plain userID = true → plain name = true → plain flightNumber = true →
  (addUser userID name flightNumber seatNumber db = Some (db', r)
   ∨ makeReservation userID flightNumber name seatNumber db = Some (db', r)) →
  succeeded r = true →
  userExists userID db' = true
  ∧ (∀ name2 flightNumber2 seatNumber2,
       addUser userID name2 flightNumber2 seatNumber2 db'
       = Some (db', UserAlreadyExists)
       ∧ makeReservation userID flightNumber2 name2 seatNumber2 db'
         = Some (db', UserAlreadyExists))
  ∧ ∃ db2, deleteUser userID db' = Some (db2, UserDeleted)
           ∧ userExists userID db2 = false.
Proof.
  intros Puid Pnm Pfn H Hr.
  assert (∃ f, users db' = <[userID := Users.Row name flightNumber seatNumber]>
                             (users db)
               ∧ flights db' = <[flightNumber :=
                                   Flights.setAvailable (λ a, a - 1) f]> (flights db))
    as (f & Hus & Hfl).
  { destruct H as [H|H].
    - destruct (addUser_plain_inv _ _ _ _ _ _ _ Puid Pnm Pfn H)
        as [[_ Hr']|(f & _ & _ & _ & -> & _)]; [congruence|]. by exists f.
    - destruct (makeReservation_plain_inv _ _ _ _ _ _ _ Puid Pfn Pnm H)
        as [[_ Hr']|(f & _ & _ & _ & _ & -> & _)]; [congruence|]. by exists f. }
  assert (userExists userID db' = true) as Hex.
  { apply userExists_true. rewrite (plain_c_str _ Puid), Hus, lookup_insert_eq.
    by eexists. }
  split; [done|]. split.
  - intros nm2 fn2 seat2. unfold addUser, makeReservation. by rewrite Hex.
  - assert (users db' !! userID
            = Some (Users.Row name flightNumber seatNumber)) as Hu
      by (by rewrite Hus, lookup_insert_eq).
    unfold deleteUser. rewrite Hex. simpl.
    unfold selectFlightNumber, deleteUserSql, executeSQL.
    rewrite (plain_sql_literal _ Puid). simpl. rewrite Hu. simpl.
    rewrite (plain_c_str _ Pfn).
    destruct (String.eqb flightNumber EmptyString); simpl.
    + eexists. split; [done|]. apply userExists_false. simpl.
      by rewrite (plain_c_str _ Puid), lookup_delete_eq.
    + unfold updateAvailableSql. rewrite (plain_sql_literal _ Pfn). simpl.
      eexists. split; [done|]. apply userExists_false. simpl.
      by rewrite (plain_c_str _ Puid), lookup_delete_eq.
Qed.

Lemma one_booking_per_userID_witness :
  ∃ db', addUser "U2" "Sara" "AA100" 2 dbAA100 = Some (db', UserAdded)
         ∧ userExists "U2" db' = true
         ∧ makeReservation "U2" "AA100" "Sara" 1 db' = Some (db', UserAlreadyExists).
Proof.
  assert (addUser "U2" "Sara" "AA100" 2 dbAA100
          = Some (Db {[ "AA100" := Flights.Row "Delta" "Lahore" "Karachi" 2 0 ]}
                     (<[ "U2" := Users.Row "Sara" "AA100" 2 ]> (users dbAA100)),
                  UserAdded)) as Hrun by (vm_compute; reflexivity).
  destruct (one_booking_per_userID "U2" "Sara" "AA100" 2 dbAA100 _ UserAdded
              eq_refl eq_refl eq_refl (or_introl Hrun) eq_refl)
    as (Hex & Hnext & _).
  eexists. split; [exact Hrun|]. split; [exact Hex|].
  exact (proj2 (Hnext "Sara" "AA100" 1)).
Defined.
